(** * Shallow embedding of the three table transformations of [app.py]
    ([ajouter_diametres], [nettoyer_fichier], [comparer_fichiers]).

    A pandas [DataFrame] is modelled as its column labels and its rows; a
    row carries its index label (pandas keeps labels through filtering,
    sorting and [drop_duplicates]) and its cells, aligned with the columns.
    [st.error] is a display side channel: a call returns the list of
    messages it displayed together with the returned frame, or an
    exception raised by pandas. *)

From Stdlib Require Import String Ascii List ZArith Bool Lia.
From Stdlib Require Import OrdersEx RelationClasses Sorted Permutation.
Import ListNotations.
Open Scope string_scope.

(** ** Cells and frames *)

(** A cell: a missing value ([NaN]/[NaT]), an integer, a string (held
    as the UTF-8 encoding of its text) or a parsed timestamp. *)
Inductive cell : Type :=
| NaN
| Int (z : Z)
| Str (s : string)
| Timestamp (d : Z).

Definition cell_eq_dec (a b : cell) : {a = b} + {a <> b}.
Proof. decide equality; (apply Z.eq_dec || apply string_dec). Defined.

(** Key equality as pandas uses it in [merge], [isin] and [duplicated]:
    missing keys compare equal to each other. *)
Definition cell_eqb (a b : cell) : bool :=
  if cell_eq_dec a b then true else false.

Definition notna (c : cell) : bool :=
  match c with NaN => false | _ => true end.

Record DataFrame : Type := mkDF {
  columns : list string;
  rows : list (nat * list cell)
}.

(** [pd.DataFrame()]: no columns, no rows. *)
Definition empty_frame : DataFrame := mkDF [] [].

Definition has_col (df : DataFrame) (c : string) : bool :=
  existsb (String.eqb c) (columns df).

Fixpoint col_index (cs : list string) (c : string) : option nat :=
  match cs with
  | [] => None
  | c' :: cs' =>
      if String.eqb c c' then Some 0
      else option_map S (col_index cs' c)
  end.

(** [row[c]] for a row of a frame with columns [cs]. *)
Definition get (cs : list string) (cells : list cell) (c : string) : cell :=
  match col_index cs c with
  | Some i => nth i cells NaN
  | None => NaN
  end.

Fixpoint replace_nth {A} (i : nat) (v : A) (l : list A) : list A :=
  match l, i with
  | [], _ => []
  | _ :: l', O => v :: l'
  | x :: l', S i' => x :: replace_nth i' v l'
  end.

(** [df[c] = f(df[c])] on an existing column [c]. *)
Definition assign_column (df : DataFrame) (c : string) (f : cell -> cell)
  : DataFrame :=
  match col_index (columns df) c with
  | Some i =>
      mkDF (columns df)
        (map (fun r => (fst r, replace_nth i (f (nth i (snd r) NaN)) (snd r)))
           (rows df))
  | None => df
  end.

Fixpoint mem (c : cell) (l : list cell) : bool :=
  match l with
  | [] => false
  | c' :: l' => cell_eqb c c' || mem c l'
  end.

(** ** Strings: [str(x)] and [str.strip()] *)

(** Python's [str.isspace()] on one code point: U+0009-U+000D,
    U+001C-U+0020, U+0085, U+00A0, U+1680, U+2000-U+200A, U+2028,
    U+2029, U+202F, U+205F and U+3000. *)
Definition is_space (n : N) : bool :=
  (N.leb 9 n && N.leb n 13) || (N.leb 28 n && N.leb n 32) ||
  N.eqb n 133 || N.eqb n 160 || N.eqb n 5760 ||
  (N.leb 8192 n && N.leb n 8202) || N.eqb n 8232 || N.eqb n 8233 ||
  N.eqb n 8239 || N.eqb n 8287 || N.eqb n 12288.

(** A UTF-8 continuation byte. *)
Definition cont (b : N) : bool := N.leb 128 b && N.leb b 191.

(** The code points of two- and three-byte UTF-8 sequences (four-byte
    sequences encode no whitespace). *)
Definition cp2 (a b : N) : N := ((a - 192) * 64 + (b - 128))%N.
Definition cp3 (a b c : N) : N := ((a - 224) * 4096 + (b - 128) * 64 + (c - 128))%N.

(** Whether bytes [a b] are one two-byte whitespace character, and
    [a b c] one three-byte whitespace character. *)
Definition space2 (a b : N) : bool :=
  N.leb 194 a && N.leb a 223 && cont b && is_space (cp2 a b).
Definition space3 (a b c : N) : bool :=
  N.leb 224 a && N.leb a 239 && cont b && cont c && is_space (cp3 a b c).

(** Drops the whitespace characters at the head of a UTF-8 byte list. *)
Fixpoint drop_spaces (l : list ascii) : list ascii :=
  match l with
  | [] => []
  | a :: l1 =>
      if N.ltb (N_of_ascii a) 128 then
        (if is_space (N_of_ascii a) then drop_spaces l1 else l)
      else
        match l1 with
        | [] => l
        | b :: l2 =>
            if space2 (N_of_ascii a) (N_of_ascii b) then drop_spaces l2
            else
              match l2 with
              | [] => l
              | c :: l3 =>
                  if space3 (N_of_ascii a) (N_of_ascii b) (N_of_ascii c)
                  then drop_spaces l3 else l
              end
        end
  end.

(** Drops the whitespace characters at the head of a reversed UTF-8
    byte list (its last character first, bytes in reverse order). *)
Fixpoint drop_spaces_rev (l : list ascii) : list ascii :=
  match l with
  | [] => []
  | a :: l1 =>
      if N.ltb (N_of_ascii a) 128 then
        (if is_space (N_of_ascii a) then drop_spaces_rev l1 else l)
      else
        match l1 with
        | [] => l
        | b :: l2 =>
            if space2 (N_of_ascii b) (N_of_ascii a) then drop_spaces_rev l2
            else
              match l2 with
              | [] => l
              | c :: l3 =>
                  if space3 (N_of_ascii c) (N_of_ascii b) (N_of_ascii a)
                  then drop_spaces_rev l3 else l
              end
        end
  end.

(** Python's [str.strip()], on the UTF-8 encoding of the text: removes
    the leading and trailing characters for which [str.isspace()] holds. *)
Definition strip (s : string) : string :=
  string_of_list_ascii
    (rev (drop_spaces_rev (rev (drop_spaces (list_ascii_of_string s))))).

Fixpoint digits (fuel : nat) (n : N) (acc : string) : string :=
  match fuel with
  | O => acc
  | S f =>
      let acc' := String (ascii_of_N (48 + N.modulo n 10)) acc in
      if N.eqb (N.div n 10) 0 then acc' else digits f (N.div n 10) acc'
  end.

Definition Z_repr (z : Z) : string :=
  match z with
  | Z0 => "0"
  | Zpos p => digits (Pos.size_nat p) (Npos p) ""
  | Zneg p => "-" ++ digits (Pos.size_nat p) (Npos p) ""
  end.

(** [.astype(str)] of a cell; a timestamp is rendered by its ordinal. *)
Definition astype_str (c : cell) : string :=
  match c with
  | NaN => "nan"
  | Int z => Z_repr z
  | Str s => s
  | Timestamp d => Z_repr d
  end.

(** ** Sorting: [sort_values(by=[key, date], ascending=[True, False])] *)

(** Order of non-missing values of one column, as pandas' [safe_sort]
    orders mixed columns: numbers before strings; timestamps by time. *)
Definition cell_cmp (a b : cell) : comparison :=
  match a, b with
  | Int x, Int y => Z.compare x y
  | Str x, Str y => String_as_OT.compare x y
  | Timestamp x, Timestamp y => Z.compare x y
  | Int _, _ => Lt
  | _, Int _ => Gt
  | Str _, _ => Lt
  | _, Str _ => Gt
  | _, _ => Eq
  end.

(** One sort column with [na_position='last'], ascending or descending. *)
Definition na_last_cmp (asc : bool) (a b : cell) : comparison :=
  match a, b with
  | NaN, NaN => Eq
  | NaN, _ => Gt
  | _, NaN => Lt
  | _, _ => if asc then cell_cmp a b else cell_cmp b a
  end.

Definition KEY : string := "N° compteur".
Definition DATE : string := "Date".
Definition INDEX : string := "Index".

Section Nettoyage.

(** Columns of the frame being processed. *)
Variable cs : list string.

Definition key (r : nat * list cell) : cell := get cs (snd r) KEY.
Definition date (r : nat * list cell) : cell := get cs (snd r) DATE.

Definition row_cmp (r1 r2 : nat * list cell) : comparison :=
  match na_last_cmp true (key r1) (key r2) with
  | Eq => na_last_cmp false (date r1) (date r2)
  | o => o
  end.

Definition row_le (r1 r2 : nat * list cell) : bool :=
  match row_cmp r1 r2 with Gt => false | _ => true end.

(** A stable sort: pandas sorts on several columns with [lexsort], which
    is stable; any stable sort by the same total preorder has the same
    result, and insertion sort is the simplest one. *)
Fixpoint insert (x : nat * list cell) (l : list (nat * list cell)) :=
  match l with
  | [] => [x]
  | y :: l' => if row_le x y then x :: l else y :: insert x l'
  end.

Fixpoint sort (l : list (nat * list cell)) : list (nat * list cell) :=
  match l with
  | [] => []
  | x :: l' => insert x (sort l')
  end.

(** [drop_duplicates(subset=key, keep="first")]. *)
Fixpoint drop_dup (seen : list cell) (l : list (nat * list cell)) :=
  match l with
  | [] => []
  | r :: l' =>
      if mem (key r) seen then drop_dup seen l'
      else r :: drop_dup (key r :: seen) l'
  end.

(** [pd.notna(Index) & (Index.astype(str).str.strip() != '')]. *)
Definition index_ok (r : nat * list cell) : bool :=
  let c := get cs (snd r) INDEX in
  notna c && negb (String.eqb (strip (astype_str c)) "").

End Nettoyage.

Section Parse.

(** The lenient day-first date parser behind [pd.to_datetime]
    ([None] when the text does not parse). *)
Variable parse_date : string -> option Z.

(** [pd.to_datetime(x, errors='coerce', dayfirst=True)] on one cell;
    an integer is read as an epoch count. *)
Definition to_datetime (c : cell) : cell :=
  match c with
  | NaN => NaN
  | Int z => Timestamp z
  | Str s => match parse_date s with Some d => Timestamp d | None => NaN end
  | Timestamp d => Timestamp d
  end.

Fixpoint join (sep : string) (l : list string) : string :=
  match l with
  | [] => ""
  | [x] => x
  | x :: l' => x ++ sep ++ join sep l'
  end.

Definition colonnes_requises : list string := [KEY; DATE; INDEX].

(** [nettoyer_fichier(df)]. The first component is the caller's frame
    after the call ([df['Date'] = ...] and [dropna(inplace=True)] mutate
    it); the second the displayed messages and the returned frame. *)
Definition nettoyer_fichier (df : DataFrame)
  : DataFrame * (list string * DataFrame) :=
  if negb (forallb (has_col df) colonnes_requises) then
    let cols_manquantes :=
      filter (fun c => negb (has_col df c)) colonnes_requises in
    (df, (["Erreur : il manque les colonnes suivantes : "
             ++ join ", " cols_manquantes], empty_frame))
  else
    let df1 := assign_column df DATE to_datetime in
    let df2 := mkDF (columns df1)
                 (filter (fun r => notna (date (columns df1) r)) (rows df1)) in
    let cs := columns df2 in
    let df_trie := sort cs (rows df2) in
    let df_filtre := filter (index_ok cs) df_trie in
    let df_final := drop_dup cs [] df_filtre in
    (df2, ([], mkDF cs df_final)).

End Parse.

(** ** [comparer_fichiers] *)

Definition column (df : DataFrame) (c : string) : list cell :=
  map (fun r => get (columns df) (snd r) c) (rows df).

(** [set(a) - set(b)], as a list of the elements of [a] absent from [b]
    (only membership in it is used). *)
Definition set_diff (a b : list cell) : list cell :=
  filter (fun c => negb (mem c b)) a.

Definition comparer_fichiers (df1 df2 : DataFrame)
  : list string * DataFrame :=
  if negb (has_col df1 KEY) || negb (has_col df2 KEY) then
    (["La colonne 'N° compteur' doit exister dans les deux fichiers."],
     empty_frame)
  else
    let compteurs_f1 := column df1 KEY in
    let compteurs_f2 := column df2 KEY in
    let compteurs_manquants := set_diff compteurs_f1 compteurs_f2 in
    let resultat :=
      filter (fun r => mem (get (columns df1) (snd r) KEY) compteurs_manquants)
        (rows df1) in
    ([], mkDF (columns df1) resultat).

(** ** [ajouter_diametres] *)

Inductive exn : Type :=
| KeyError
| MergeError.

Inductive outcome : Type :=
| Returned (msgs : list string) (df : DataFrame)
| Raised (e : exn).

Definition NUMERO : string := "Numéro de compteur".
Definition DIAMETRE : string := "Diametre".

Definition mem_str (c : string) (l : list string) : bool :=
  existsb (String.eqb c) l.

(** [df[[c1, ..., cn]]]. *)
Definition select (df : DataFrame) (cs : list string) : DataFrame :=
  mkDF cs (map (fun r => (fst r, map (get (columns df) (snd r)) cs)) (rows df)).

(** Labels made duplicate by the suffixes ([llabels.duplicated() &
    ~left.duplicated()] in pandas' [_items_overlap_with_suffix]). *)
Fixpoint new_dups (seen_orig seen_new orig renamed : list string)
  : list string :=
  match orig, renamed with
  | o :: os, n :: ns =>
      ((if mem_str n seen_new && negb (mem_str o seen_orig) then [n] else [])
        ++ new_dups (o :: seen_orig) (n :: seen_new) os ns)%list
  | _, _ => []
  end.

(** [pd.merge(left, right, left_on=lk, right_on=rk, how='left')]: every
    left row, in order, is followed by one row per matching right row in
    the right's order, or by one row of missing values when none matches;
    overlapping column labels get the suffixes [_x] and [_y]; the result
    has a fresh index [0..n-1]. *)
Definition merge_left (left right : DataFrame) (lk rk : string)
  : option DataFrame :=
  let lc := columns left in
  let rc := columns right in
  let lc' := map (fun c => if mem_str c rc then c ++ "_x" else c) lc in
  let rc' := map (fun c => if mem_str c lc then c ++ "_y" else c) rc in
  let block (l : nat * list cell) :=
    match filter (fun r => cell_eqb (get rc (snd r) rk) (get lc (snd l) lk))
            (rows right) with
    | [] => [(snd l ++ repeat NaN (length rc))%list]
    | ms => map (fun m => (snd l ++ snd m)%list) ms
    end in
  let out := flat_map block (rows left) in
  match (new_dups [] [] lc lc' ++ new_dups [] [] rc rc')%list with
  | [] => Some (mkDF (lc' ++ rc')%list (combine (seq 0 (length out)) out))
  | _ => None
  end.

(** The cells of a row of a frame with columns [cs] once the column [c]
    is dropped. *)
Definition keep_cells (cs : list string) (c : string) (cells : list cell)
  : list cell :=
  map snd (filter (fun p => negb (String.eqb (fst p) c)) (combine cs cells)).

(** [df.drop(columns=[c])]: [KeyError] when there is no column [c]. *)
Definition drop_column (df : DataFrame) (c : string) : option DataFrame :=
  if mem_str c (columns df) then
    Some (mkDF (filter (fun c' => negb (String.eqb c' c)) (columns df))
            (map (fun r => (fst r, keep_cells (columns df) c (snd r))) (rows df)))
  else None.

Definition ajouter_diametres (df_extraction df_diametres : DataFrame)
  : outcome :=
  if negb (has_col df_extraction KEY) then
    Returned ["Le fichier d'extraction doit avoir une colonne 'N° compteur'."]
      empty_frame
  else if negb (has_col df_diametres NUMERO) || negb (has_col df_diametres DIAMETRE)
  then
    Returned ["Le fichier des diamètres doit avoir les colonnes 'Numéro de compteur' et 'Diametre'."]
      empty_frame
  else
    match merge_left df_extraction (select df_diametres [NUMERO; DIAMETRE])
            KEY NUMERO with
    | None => Raised MergeError
    | Some df_fusionne =>
        match drop_column df_fusionne NUMERO with
        | None => Raised KeyError
        | Some df_fusionne' => Returned [] df_fusionne'
        end
    end.

(** ** Concrete frames and a date parser *)

Definition row_of (i : nat) (k d : cell) (x : cell) : nat * list cell :=
  (i, [k; d; x]).

Definition releves (l : list (nat * list cell)) : DataFrame :=
  mkDF [KEY; DATE; INDEX] l.

Definition digit (a : ascii) : option Z :=
  let n := Z.of_nat (nat_of_ascii a) in
  if (48 <=? n)%Z && (n <=? 57)%Z then Some (n - 48)%Z else None.

Fixpoint number (acc : Z) (l : list ascii) : option Z :=
  match l with
  | [] => Some acc
  | a :: l' =>
      match digit a with
      | Some d => number (10 * acc + d)%Z l'
      | None => None
      end
  end.

(** A parser for [YYYY-MM-DD] (giving [YYYYMMDD]), used in examples. *)
Definition iso_parse (s : string) : option Z :=
  match list_ascii_of_string s with
  | [y1; y2; y3; y4; "-"%char; m1; m2; "-"%char; d1; d2] =>
      number 0 [y1; y2; y3; y4; m1; m2; d1; d2]
  | _ => None
  end.

(** ** Reading the results *)

(** The app's row count "Lignes avant", taken from [df_initial] after
    [nettoyer_fichier(df_initial)] has run (lines 124-126). *)
Definition lignes_originales (parse : string -> option Z) (df : DataFrame)
  : nat :=
  length (rows (fst (nettoyer_fichier parse df))).

(** Whether a message mentions a text. *)
Fixpoint contains (pat s : string) : bool :=
  String.prefix pat s ||
  match s with
  | EmptyString => false
  | String _ s' => contains pat s'
  end.

(** The ordinal of a parsed date cell. *)
Definition date_value (cs : list string) (r : nat * list cell) : Z :=
  match date cs r with Timestamp d => d | _ => 0%Z end.

Definition R_le (cs : list string) (a b : nat * list cell) : Prop :=
  row_le cs a b = true.

(** The first of the rows that no other row precedes in the sort order,
    computed from the right. *)
Fixpoint best (cs : list string) (l : list (nat * list cell))
  : option (nat * list cell) :=
  match l with
  | [] => None
  | x :: l' =>
      match best cs l' with
      | None => Some x
      | Some y => if row_le cs x y then Some x else Some y
      end
  end.

(** The lookup rows whose [Numéro de compteur] equals a key. *)
Definition matches (df_d : DataFrame) (k : cell) : list (nat * list cell) :=
  filter (fun m => cell_eqb (get (columns df_d) (snd m) NUMERO) k) (rows df_d).

(** The [Diametre] values a primary key is joined with: those of all
    matching lookup rows, in lookup order, or one missing value. *)
Definition joined_diameters (df_d : DataFrame) (k : cell) : list cell :=
  match map (fun m => get (columns df_d) (snd m) DIAMETRE) (matches df_d k) with
  | [] => [NaN]
  | ds => ds
  end.

(** Column labels of [ajouter_diametres]'s merge: the primary's, with
    [_x] on those the lookup selection also has, and the lookup's
    [Diametre], with [_y] when the primary has a [Diametre] column. *)
Definition left_labels (lc : list string) : list string :=
  map (fun c => if mem_str c [NUMERO; DIAMETRE] then c ++ "_x" else c) lc.

Definition right_label (lc : list string) : string :=
  if mem_str DIAMETRE lc then "Diametre_y" else DIAMETRE.

(** The cells of the rows [ajouter_diametres] returns: each primary row
    followed by each of the diameters it is joined with. *)
Definition joined_cells (df_e df_d : DataFrame) : list (list cell) :=
  flat_map (fun l => map (fun d => (snd l ++ [d])%list)
                      (joined_diameters df_d (get (columns df_e) (snd l) KEY)))
    (rows df_e).

(** ** The three pages of the app *)

(** What a page run displays, in order: the [st.*] calls whose content
    depends on the data (the static titles, headers and help texts
    before the upload widgets are left out). A download button carries the
    frame whose [to_csv(index=False, sep=';')] it serves. *)
Inductive display : Type :=
| st_error (s : string)
| st_success (s : string)
| st_info (s : string)
| st_header (s : string)
| st_subheader (s : string)
| st_dataframe (df : DataFrame)
| st_metric (label : string) (n : nat)
| st_download_button (label file_name : string) (df : DataFrame).

Definition REF : string := "Réf. abonné".

(** [df.head()]. *)
Definition head (n : nat) (df : DataFrame) : DataFrame :=
  mkDF (columns df) (firstn n (rows df)).

(** [df.empty]: no rows or no columns. *)
Definition empty (df : DataFrame) : bool :=
  Nat.eqb (length (columns df)) 0 || Nat.eqb (length (rows df)) 0.

(** Python's [s.endswith(suffix)]. *)
Definition endswith (s suffix : string) : bool :=
  Nat.leb (String.length suffix) (String.length s) &&
  String.eqb (substring (String.length s - String.length suffix)
                (String.length suffix) s) suffix.

(** The text of the [except Exception as e] handlers. *)
Definition oups (e : string) : string :=
  "Oups, une erreur est survenue : " ++ e.

Section Pages.

(** An uploaded file and its [name]. *)
Variable upload : Type.
Variable name : upload -> string.

(** [pd.read_csv(f, sep=';', dtype=...)] and
    [pd.read_excel(f, dtype=..., engine='openpyxl')], given the columns
    read as [str]: the frame read, or the text of the exception raised. *)
Variable read_csv : list string -> upload -> string + DataFrame.
Variable read_excel : list string -> upload -> string + DataFrame.

Variable parse_date : string -> option Z.

(** [str(e)] for the exceptions [ajouter_diametres] lets through. *)
Variable exn_text : exn -> string.

Definition dtype_spec : list string := [KEY; NUMERO; REF].

(** Page "Ajout Diamètre" (lines 69-102), for the two upload widgets and
    whether the button was clicked in this run. *)
Definition page_ajout (fichier_extraction fichier_diametres : option upload)
    (bouton : bool) : list display :=
  match fichier_extraction, fichier_diametres with
  | Some fe, Some fd =>
      if bouton then
        match read_csv dtype_spec fe with
        | inl e => [st_error (oups e)]
        | inr df1 =>
            match (if endswith (name fd) ".csv" then read_csv dtype_spec fd
                   else read_excel dtype_spec fd) with
            | inl e => [st_error (oups e)]
            | inr df2 =>
                match ajouter_diametres df1 df2 with
                | Raised e => [st_error (oups (exn_text e))]
                | Returned msgs df_final =>
                    (map st_error msgs ++
                     [st_success "Opération terminée !";
                      st_subheader "Aperçu du fichier final avec les diamètres";
                      st_dataframe df_final;
                      st_download_button "Télécharger le fichier final (CSV)"
                        "extraction_avec_diametres.csv" df_final])%list
                end
            end
        end
      else []
  | _, _ => []
  end.

(** [st.session_state] of page "Nettoyage Doublons": the keys
    ['df_nettoye'] and ['lignes_originales'], always written together
    (lines 125-126). *)
Definition session : Type := option (DataFrame * nat).

(** Page "Nettoyage Doublons" (lines 114-149), one run: the session state
    it starts from, the upload widget and whether the button was clicked;
    it gives the session state it leaves and what it displays. *)
Definition page_nettoyage (state : session) (fichier_charge : option upload)
    (bouton : bool) : session * list display :=
  match fichier_charge with
  | None => (state, [])
  | Some f =>
      match read_csv [REF; KEY] f with
      | inl e => (state, [st_error (oups e)])
      | inr df_initial =>
          let apercu := [st_subheader "Aperçu du fichier original";
                         st_dataframe (head 5 df_initial)] in
          let '(state', nettoyage) :=
            if bouton then
              let '(df_apres, (msgs, df_nettoye)) :=
                nettoyer_fichier parse_date df_initial in
              (Some (df_nettoye, length (rows df_apres)),
               (map st_error msgs ++ [st_success "C'est terminé !"])%list)
            else (state, []) in
          let resultat :=
            match state' with
            | None => []
            | Some (resultat_nettoyage, lignes) =>
                [st_header "2. Résultat";
                 st_dataframe resultat_nettoyage;
                 st_metric "Lignes avant" lignes;
                 st_metric "Lignes après" (length (rows resultat_nettoyage));
                 st_download_button "Télécharger le résultat (CSV)"
                   "fichier_nettoye.csv" resultat_nettoyage]
            end in
          (state', (apercu ++ nettoyage ++ resultat)%list)
      end
  end.

(** Page "Comparaison Fichiers" (lines 162-194). *)
Definition page_comparaison (fichier1 fichier2 : option upload) (bouton : bool)
  : list display :=
  match fichier1, fichier2 with
  | Some f1, Some f2 =>
      if bouton then
        match read_csv [REF; KEY] f1 with
        | inl e => [st_error (oups e)]
        | inr df1 =>
            match read_csv [REF; KEY] f2 with
            | inl e => [st_error (oups e)]
            | inr df2 =>
                let '(msgs, df_manquants) := comparer_fichiers df1 df2 in
                (map st_error msgs ++
                 st_success ("Analyse terminée : **"
                               ++ Z_repr (Z.of_nat (length (rows df_manquants)))
                               ++ "** compteur(s) sont manquants.")
                 :: (if negb (empty df_manquants) then
                       [st_subheader "Liste des compteurs manquants";
                        st_dataframe df_manquants;
                        st_download_button "Télécharger la liste (CSV)"
                          "compteurs_manquants.csv" df_manquants]
                     else [st_info "Bonne nouvelle, aucun compteur ne manque !"]))%list
            end
        end
      else []
  | _, _ => []
  end.

End Pages.

Arguments page_ajout {upload}.
Arguments page_nettoyage {upload}.
Arguments page_comparaison {upload}.

(** A reader for examples: the uploaded file is the frame itself. *)
Definition read_frame (_ : list string) (df : DataFrame) : string + DataFrame :=
  inr df.

(** ** Example frames *)

Definition ex_primary : DataFrame := mkDF [KEY] [(0%nat, [Str "A"])].

Definition ex_primary_d : DataFrame :=
  mkDF [KEY; DIAMETRE] [(0%nat, [Str "A"; Int 5])].

Definition ex_lookup : DataFrame :=
  mkDF [NUMERO; DIAMETRE] [(0%nat, [Str "A"; Int 20]);
                           (1%nat, [Str "A"; Int 30])].

Definition t3 : DataFrame :=
  releves [row_of 0 (Str "K1") (Str "2024-01-10") (Str "100");
           row_of 1 (Str "K1") (Str "2024-02-05") (Str "");
           row_of 2 (Str "K1") (Str "2023-12-01") (Str "50")].

Definition t9 : DataFrame :=
  releves [row_of 0 (Str "K1") (Timestamp 1) (Str "a");
           row_of 1 (Str "K1") (Timestamp 1) (Str "b");
           row_of 2 (Str "K1") (Timestamp 2) (Str "c")].

Definition t8 : DataFrame :=
  releves [row_of 0 (Str "A") (Str "not-a-date") (Str "1");
           row_of 1 (Str "B") (Str "2024-01-10") (Str "2")].

Definition keys_frame (ks : list Z) : DataFrame :=
  mkDF [KEY] (combine (seq 0 (length ks)) (map (fun k => [Int k]) ks)).

(** ** Properties of the orders *)

Lemma str_cmp_eq (a b : string) : String_as_OT.compare a b = Eq <-> a = b.
Proof.
  destruct (String_as_OT.compare_spec a b) as [H|H|H]; split; intro E;
    try reflexivity; try discriminate; try exact H; subst;
    exfalso; eapply (StrictOrder_Irreflexive (R := String_as_OT.lt)); eauto.
Qed.

Lemma str_cmp_opp (a b : string) :
  String_as_OT.compare b a = CompOpp (String_as_OT.compare a b).
Proof.
  pose proof (StrictOrder_Irreflexive (R := String_as_OT.lt)) as Hirr.
  pose proof (StrictOrder_Transitive (R := String_as_OT.lt)) as Htr.
  destruct (String_as_OT.compare_spec a b) as [H|H|H]; simpl.
  - cbv [String_as_OT.eq] in *; subst. apply str_cmp_eq. reflexivity.
  - destruct (String_as_OT.compare_spec b a) as [H'|H'|H']; try reflexivity.
    + cbv [String_as_OT.eq] in *; subst. exfalso. exact (Hirr a H).
    + exfalso. exact (Hirr a (Htr _ _ _ H H')).
  - destruct (String_as_OT.compare_spec b a) as [H'|H'|H']; try reflexivity.
    + cbv [String_as_OT.eq] in *; subst. exfalso. exact (Hirr a H).
    + exfalso. exact (Hirr a (Htr _ _ _ H' H)).
Qed.

Lemma str_cmp_trans (a b c : string) o :
  String_as_OT.compare a b = o -> String_as_OT.compare b c = o ->
  String_as_OT.compare a c = o.
Proof.
  pose proof (StrictOrder_Transitive (R := String_as_OT.lt)) as Htr.
  intros H1 H2. destruct o.
  - apply str_cmp_eq in H1, H2. subst. apply str_cmp_eq. reflexivity.
  - unfold String_as_OT.lt in Htr. eauto.
  - rewrite str_cmp_opp in H1, H2 |- *.
    destruct (String_as_OT.compare b a) eqn:E1; try discriminate.
    destruct (String_as_OT.compare c b) eqn:E2; try discriminate.
    assert (String_as_OT.compare c a = Lt) as ->; [|reflexivity].
    unfold String_as_OT.lt in Htr. eauto.
Qed.

Lemma na_last_cmp_eq asc a b : na_last_cmp asc a b = Eq <-> a = b.
Proof.
  split; [|intros ->].
  - destruct asc, a, b; simpl; intro H; try discriminate; try reflexivity;
      try (apply Z.compare_eq_iff in H; congruence);
      try (apply str_cmp_eq in H; congruence).
  - destruct asc, b; simpl; try reflexivity;
      try apply Z.compare_refl; apply str_cmp_eq; reflexivity.
Qed.

Lemma na_last_cmp_opp asc a b :
  na_last_cmp asc b a = CompOpp (na_last_cmp asc a b).
Proof.
  destruct asc, a, b; simpl; try reflexivity;
    try apply Z.compare_antisym; apply str_cmp_opp.
Qed.

Lemma na_last_cmp_trans asc a b c o :
  na_last_cmp asc a b = o -> na_last_cmp asc b c = o ->
  na_last_cmp asc a c = o.
Proof.
  destruct o.
  - intros H1 H2. apply na_last_cmp_eq in H1, H2. subst.
    apply na_last_cmp_eq. reflexivity.
  - destruct asc, a, b, c; simpl; intros H1 H2; try discriminate;
      try reflexivity;
      try (rewrite Z.compare_lt_iff in *; lia);
      eapply str_cmp_trans; eauto.
  - destruct asc, a, b, c; simpl; intros H1 H2; try discriminate;
      try reflexivity;
      try (rewrite Z.compare_gt_iff in *; lia);
      eapply str_cmp_trans; eauto.
Qed.

Section RowOrder.

Variable cs : list string.

Lemma row_cmp_opp r1 r2 : row_cmp cs r2 r1 = CompOpp (row_cmp cs r1 r2).
Proof.
  unfold row_cmp. rewrite (na_last_cmp_opp true (key cs r1)).
  destruct (na_last_cmp true (key cs r1) (key cs r2)); simpl;
    [apply na_last_cmp_opp | reflexivity | reflexivity].
Qed.

Lemma row_cmp_eq r1 r2 :
  row_cmp cs r1 r2 = Eq <-> key cs r1 = key cs r2 /\ date cs r1 = date cs r2.
Proof.
  unfold row_cmp.
  destruct (na_last_cmp true (key cs r1) (key cs r2)) eqn:E.
  - apply na_last_cmp_eq in E. rewrite na_last_cmp_eq. tauto.
  - split; [discriminate|]. intros [Hk _]. rewrite Hk in E.
    rewrite (proj2 (na_last_cmp_eq _ _ _) eq_refl) in E. discriminate.
  - split; [discriminate|]. intros [Hk _]. rewrite Hk in E.
    rewrite (proj2 (na_last_cmp_eq _ _ _) eq_refl) in E. discriminate.
Qed.

Lemma row_cmp_eq_l r1 r2 r3 :
  row_cmp cs r1 r2 = Eq -> row_cmp cs r1 r3 = row_cmp cs r2 r3.
Proof.
  intro H. apply row_cmp_eq in H as [Hk Hd].
  unfold row_cmp. rewrite Hk, Hd. reflexivity.
Qed.

Lemma row_cmp_trans_lt r1 r2 r3 :
  row_cmp cs r1 r2 = Lt -> row_cmp cs r2 r3 = Lt -> row_cmp cs r1 r3 = Lt.
Proof.
  unfold row_cmp.
  destruct (na_last_cmp true (key cs r1) (key cs r2)) eqn:E12;
  destruct (na_last_cmp true (key cs r2) (key cs r3)) eqn:E23;
    intros H1 H2; try discriminate.
  - apply na_last_cmp_eq in E12, E23. rewrite E12, E23.
    rewrite (proj2 (na_last_cmp_eq _ _ _) eq_refl).
    eapply na_last_cmp_trans; eauto.
  - apply na_last_cmp_eq in E12. rewrite E12, E23. reflexivity.
  - apply na_last_cmp_eq in E23. rewrite <- E23, E12. reflexivity.
  - rewrite (na_last_cmp_trans _ _ _ _ _ E12 E23). reflexivity.
Qed.

Lemma row_le_trans r1 r2 r3 :
  row_le cs r1 r2 = true -> row_le cs r2 r3 = true -> row_le cs r1 r3 = true.
Proof.
  unfold row_le.
  destruct (row_cmp cs r1 r2) eqn:E12; intros H1; try discriminate;
  destruct (row_cmp cs r2 r3) eqn:E23; intros H2; try discriminate.
  - rewrite (row_cmp_eq_l _ _ r3 E12), E23. reflexivity.
  - rewrite (row_cmp_eq_l _ _ r3 E12), E23. reflexivity.
  - assert (E32 : row_cmp cs r3 r2 = Eq)
      by (rewrite row_cmp_opp, E23; reflexivity).
    rewrite (row_cmp_opp r3 r1), (row_cmp_eq_l _ _ r1 E32),
      (row_cmp_opp r1 r2), E12.
    reflexivity.
  - rewrite (row_cmp_trans_lt _ _ _ E12 E23). reflexivity.
Qed.

Lemma row_le_total r1 r2 :
  row_le cs r1 r2 = false -> row_le cs r2 r1 = true.
Proof.
  unfold row_le. rewrite (row_cmp_opp r1 r2).
  destruct (row_cmp cs r1 r2); simpl; congruence.
Qed.

Lemma row_le_refl r : row_le cs r r = true.
Proof.
  unfold row_le. rewrite (proj2 (row_cmp_eq r r) (conj eq_refl eq_refl)).
  reflexivity.
Qed.

End RowOrder.

(** ** Membership *)

Lemma cell_eqb_true a b : cell_eqb a b = true <-> a = b.
Proof.
  unfold cell_eqb. destruct (cell_eq_dec a b); split; congruence.
Qed.

Lemma cell_eqb_refl a : cell_eqb a a = true.
Proof. apply cell_eqb_true. reflexivity. Qed.

Lemma mem_In c l : mem c l = true <-> In c l.
Proof.
  induction l as [|c' l IH]; simpl; [split; [discriminate|tauto]|].
  rewrite orb_true_iff, cell_eqb_true, IH. split; intros [H|H]; auto.
Qed.

Lemma mem_str_In c l : mem_str c l = true <-> In c l.
Proof.
  unfold mem_str. rewrite existsb_exists. split.
  - intros (x & Hx & E). apply String.eqb_eq in E. subst. exact Hx.
  - intro H. exists c. split; [exact H | apply String.eqb_refl].
Qed.

Lemma mem_set_diff c a b :
  mem c (set_diff a b) = mem c a && negb (mem c b).
Proof.
  induction a as [|x a IH]; [reflexivity|].
  unfold set_diff in *; simpl.
  destruct (cell_eqb c x) eqn:E.
  - apply cell_eqb_true in E. subst.
    destruct (mem x b) eqn:Eb; simpl.
    + rewrite IH, andb_false_r. reflexivity.
    + rewrite cell_eqb_refl. reflexivity.
  - destruct (mem x b) eqn:Eb; simpl; [exact IH|].
    rewrite E. exact IH.
Qed.

(** ** The stable sort *)

Section SortFacts.

Variable cs : list string.


Lemma insert_perm x l : Permutation (insert cs x l) (x :: l).
Proof.
  induction l as [|y l IH]; simpl; [reflexivity|].
  destruct (row_le cs x y); [reflexivity|].
  rewrite IH. apply perm_swap.
Qed.

Lemma sort_perm l : Permutation (sort cs l) l.
Proof.
  induction l as [|x l IH]; simpl; [reflexivity|].
  rewrite insert_perm, IH. reflexivity.
Qed.

Lemma insert_sorted x l :
  StronglySorted (R_le cs) l -> StronglySorted (R_le cs) (insert cs x l).
Proof.
  induction 1 as [|y l Hl IH Hy]; simpl.
  - repeat constructor.
  - destruct (row_le cs x y) eqn:Exy.
    + constructor; [constructor; assumption|].
      constructor; [exact Exy|].
      eapply Forall_impl; [|exact Hy].
      intros z Hz. eapply row_le_trans; eauto.
    + constructor; [exact IH|].
      eapply Permutation_Forall; [symmetry; apply insert_perm|].
      constructor; [apply row_le_total; exact Exy | exact Hy].
Qed.

Lemma sort_sorted l : StronglySorted (R_le cs) (sort cs l).
Proof.
  induction l as [|x l IH]; simpl; [constructor|].
  apply insert_sorted, IH.
Qed.

Lemma sort_id l : StronglySorted (R_le cs) l -> sort cs l = l.
Proof.
  induction 1 as [|x l Hl IH Hx]; simpl; [reflexivity|].
  rewrite IH. destruct l as [|y l]; simpl; [reflexivity|].
  inversion Hx; subst. rewrite H1. reflexivity.
Qed.

(** Inserting a row changes the first row with a property only when the
    new row has it and no row with it sorts strictly before it. *)
Lemma find_insert (P : nat * list cell -> bool) x l :
  StronglySorted (R_le cs) l ->
  find P (insert cs x l) =
  if P x then
    match find P l with
    | None => Some x
    | Some y => if row_le cs x y then Some x else Some y
    end
  else find P l.
Proof.
  induction 1 as [|y l Hl IH Hy]; simpl.
  - destruct (P x); reflexivity.
  - destruct (row_le cs x y) eqn:Exy; simpl.
    + destruct (P x) eqn:Px; [|reflexivity].
      destruct (P y); [rewrite Exy; reflexivity|].
      destruct (find P l) as [z|] eqn:Fz; [|reflexivity].
      apply find_some in Fz as [Hz _].
      rewrite Forall_forall in Hy.
      rewrite (row_le_trans _ _ _ _ Exy (Hy z Hz)). reflexivity.
    + destruct (P y) eqn:Py.
      * destruct (P x); [rewrite Exy|]; reflexivity.
      * exact IH.
Qed.

Lemma find_sort (P : nat * list cell -> bool) l :
  find P (sort cs l) = best cs (filter P l).
Proof.
  induction l as [|x l IH]; simpl; [reflexivity|].
  rewrite find_insert by apply sort_sorted. rewrite IH.
  destruct (P x); reflexivity.
Qed.

Lemma find_strengthen (P Q : nat * list cell -> bool) l y :
  find P l = Some y -> Q y = true ->
  find (fun r => Q r && P r) l = Some y.
Proof.
  induction l as [|x l IH]; simpl; [discriminate|].
  destruct (P x) eqn:Px; intros H Qy.
  - injection H as <-. rewrite Qy. reflexivity.
  - rewrite andb_false_r. apply IH; assumption.
Qed.

(** [best] is the first row preceded by no other. *)
Lemma best_first_min l :
  best cs l = find (fun r => forallb (fun r' => row_le cs r r') l) l.
Proof.
  induction l as [|x l IH]; simpl; [reflexivity|].
  rewrite row_le_refl. simpl. rewrite IH.
  destruct (find (fun r => forallb (fun r' => row_le cs r r') l) l)
    as [y|] eqn:Fy.
  - pose proof Fy as Fy'. apply find_some in Fy' as [Hy Ay].
    rewrite forallb_forall in Ay.
    destruct (row_le cs x y) eqn:Exy.
    + assert (forallb (fun r' => row_le cs x r') l = true) as ->;
        [|reflexivity].
      apply forallb_forall. intros z Hz.
      eapply row_le_trans; [exact Exy | apply Ay, Hz].
    + assert (forallb (fun r' => row_le cs x r') l = false) as ->.
      { apply not_true_iff_false. rewrite forallb_forall.
        intro H. rewrite (H y Hy) in Exy. discriminate. }
      symmetry. apply find_strengthen; [exact Fy|].
      apply row_le_total, Exy.
  - rewrite <- IH in Fy. destruct l as [|z l]; [reflexivity|].
    exfalso. simpl in IH.
    destruct (best cs l) as [p|]; [destruct (row_le cs z p)|]; discriminate.
Qed.

End SortFacts.

(** ** [drop_duplicates] *)

Section DropDup.

Variable cs : list string.

Lemma drop_dup_incl seen l r : In r (drop_dup cs seen l) -> In r l.
Proof.
  revert seen. induction l as [|x l IH]; simpl; intros seen; [tauto|].
  destruct (mem (key cs x) seen); simpl.
  - intro H. right. eapply IH; eauto.
  - intros [H|H]; [left; exact H | right; eapply IH; eauto].
Qed.

Lemma drop_dup_fresh seen l r :
  In r (drop_dup cs seen l) -> mem (key cs r) seen = false.
Proof.
  revert seen. induction l as [|x l IH]; simpl; intros seen; [tauto|].
  destruct (mem (key cs x) seen) eqn:E; simpl; [apply IH|].
  intros [H|H]; [subst; exact E|].
  apply IH in H. simpl in H. apply orb_false_iff in H as [_ H]. exact H.
Qed.

Lemma drop_dup_nodup seen l : NoDup (map (key cs) (drop_dup cs seen l)).
Proof.
  revert seen. induction l as [|x l IH]; simpl; intros seen; [constructor|].
  destruct (mem (key cs x) seen); simpl; [apply IH|].
  constructor; [|apply IH].
  rewrite in_map_iff. intros (r & Hk & Hr).
  apply drop_dup_fresh in Hr. simpl in Hr. rewrite Hk, cell_eqb_refl in Hr.
  discriminate.
Qed.

Lemma drop_dup_id seen l :
  NoDup (map (key cs) l) ->
  Forall (fun r => mem (key cs r) seen = false) l ->
  drop_dup cs seen l = l.
Proof.
  revert seen. induction l as [|x l IH]; simpl; intros seen Hnd Hf;
    [reflexivity|].
  inversion Hnd as [|? ? Hx Hnd']; subst. inversion Hf as [|? ? Hx' Hf']; subst.
  rewrite Hx'. f_equal. apply IH; [exact Hnd'|].
  rewrite Forall_forall in Hf' |- *. intros r Hr. simpl.
  rewrite (Hf' r Hr), orb_false_r.
  destruct (cell_eqb (key cs r) (key cs x)) eqn:E; [|reflexivity].
  apply cell_eqb_true in E. exfalso. apply Hx. rewrite <- E.
  apply in_map. exact Hr.
Qed.

Lemma find_drop_dup seen l k :
  find (fun r => cell_eqb (key cs r) k) (drop_dup cs seen l) =
  if mem k seen then None else find (fun r => cell_eqb (key cs r) k) l.
Proof.
  revert seen. induction l as [|x l IH]; simpl; intros seen;
    [destruct (mem k seen); reflexivity|].
  destruct (cell_eqb (key cs x) k) eqn:E.
  - apply cell_eqb_true in E. subst k.
    destruct (mem (key cs x) seen) eqn:M; simpl.
    + rewrite IH, M. reflexivity.
    + rewrite cell_eqb_refl. reflexivity.
  - destruct (mem (key cs x) seen) eqn:M; simpl.
    + apply IH.
    + rewrite E, IH. simpl.
      assert (cell_eqb k (key cs x) = false) as ->; [|reflexivity].
      apply not_true_iff_false. rewrite cell_eqb_true. intros ->.
      rewrite cell_eqb_refl in E. discriminate.
Qed.

Lemma drop_dup_sorted seen l :
  StronglySorted (R_le cs) l -> StronglySorted (R_le cs) (drop_dup cs seen l).
Proof.
  intros H. revert seen. induction H as [|x l Hl IH Hx]; simpl; intros seen;
    [constructor|].
  destruct (mem (key cs x) seen); [apply IH|].
  constructor; [apply IH|].
  rewrite Forall_forall in Hx |- *. intros r Hr.
  apply Hx. eapply drop_dup_incl; eauto.
Qed.

End DropDup.

Lemma filter_sorted {A} (R : A -> A -> Prop) (p : A -> bool) l :
  StronglySorted R l -> StronglySorted R (filter p l).
Proof.
  induction 1 as [|x l Hl IH Hx]; simpl; [constructor|].
  destruct (p x); [|exact IH].
  constructor; [exact IH|].
  rewrite Forall_forall in Hx |- *. intros y Hy.
  apply filter_In in Hy as [Hy _]. apply Hx, Hy.
Qed.

(** ** The steps of [nettoyer_fichier] *)

Lemma nth_replace_nth {A} i (v d : A) l :
  nth i (replace_nth i v l) d = if Nat.ltb i (length l) then v else d.
Proof.
  revert i. induction l as [|x l IH]; intros [|i]; simpl; try reflexivity.
  apply IH.
Qed.

Lemma replace_nth_nth {A} i (d : A) l : replace_nth i (nth i l d) l = l.
Proof.
  revert i. induction l as [|x l IH]; intros [|i]; simpl; try reflexivity.
  rewrite IH. reflexivity.
Qed.

Lemma assign_column_columns df c f :
  columns (assign_column df c f) = columns df.
Proof. unfold assign_column. destruct (col_index (columns df) c); reflexivity. Qed.

Lemma to_datetime_cases parse c :
  to_datetime parse c = NaN \/ exists d, to_datetime parse c = Timestamp d.
Proof.
  destruct c; simpl; eauto.
  destruct (parse s); eauto.
Qed.

Lemma assign_date_cases parse df r :
  In r (rows (assign_column df DATE (to_datetime parse))) ->
  date (columns df) r = NaN \/ exists d, date (columns df) r = Timestamp d.
Proof.
  unfold assign_column, date, get.
  destruct (col_index (columns df) DATE) as [i|] eqn:Ei; [|auto].
  simpl. rewrite in_map_iff. intros (r0 & <- & _). simpl.
  rewrite nth_replace_nth. destruct (Nat.ltb i (length (snd r0))); [|auto].
  apply to_datetime_cases.
Qed.

(** The frame the caller holds after the call: parsed dates, rows whose
    date did not parse removed. *)
Lemma nettoyer_fichier_ok parse df :
  forallb (has_col df) colonnes_requises = true ->
  let cs := columns df in
  let df2 := mkDF cs (filter (fun r => notna (date cs r))
                        (rows (assign_column df DATE (to_datetime parse)))) in
  nettoyer_fichier parse df =
  (df2, ([], mkDF cs (drop_dup cs [] (filter (index_ok cs) (sort cs (rows df2)))))).
Proof.
  intros H. unfold nettoyer_fichier. rewrite H. simpl.
  rewrite assign_column_columns. reflexivity.
Qed.

Lemma parsed_rows_dated parse df r :
  In r (filter (fun r => notna (date (columns df) r))
          (rows (assign_column df DATE (to_datetime parse)))) ->
  exists d, date (columns df) r = Timestamp d.
Proof.
  rewrite filter_In. intros [Hr Hn].
  destruct (assign_date_cases parse df r Hr) as [E|E]; [|exact E].
  rewrite E in Hn. discriminate.
Qed.

Lemma filter_all {A} (p : A -> bool) l :
  (forall x, In x l -> p x = true) -> filter p l = l.
Proof.
  induction l as [|x l IH]; simpl; intros H; [reflexivity|].
  rewrite (H x (or_introl eq_refl)), IH; [reflexivity|].
  intros y Hy. apply H. right. exact Hy.
Qed.

Lemma find_ext_in {A} (f g : A -> bool) l :
  (forall x, In x l -> f x = g x) -> find f l = find g l.
Proof.
  induction l as [|x l IH]; simpl; intros H; [reflexivity|].
  rewrite (H x (or_introl eq_refl)), IH; [reflexivity|].
  intros y Hy. apply H. right. exact Hy.
Qed.

Lemma forallb_ext_in {A} (f g : A -> bool) l :
  (forall x, In x l -> f x = g x) -> forallb f l = forallb g l.
Proof.
  induction l as [|x l IH]; simpl; intros H; [reflexivity|].
  rewrite (H x (or_introl eq_refl)), IH; [reflexivity|].
  intros y Hy. apply H. right. exact Hy.
Qed.

Lemma find_filter {A} (p q : A -> bool) l :
  find p (filter q l) = find (fun x => q x && p x) l.
Proof.
  induction l as [|x l IH]; simpl; [reflexivity|].
  destruct (q x); simpl; [destruct (p x)|]; auto.
Qed.

Lemma row_le_same_key cs r r' a b :
  key cs r = key cs r' -> date cs r = Timestamp a -> date cs r' = Timestamp b ->
  row_le cs r r' = (b <=? a)%Z.
Proof.
  intros Hk Ha Hb. unfold row_le, row_cmp. rewrite Hk.
  rewrite (proj2 (na_last_cmp_eq _ _ _) eq_refl), Ha, Hb. simpl.
  reflexivity.
Qed.

(** The row kept for a key: among the rows of that key whose date parsed
    and whose Index is filled, the first (in the caller's order) of those
    with the latest date. *)
Lemma nettoyer_fichier_kept_row parse df k :
  forallb (has_col df) colonnes_requises = true ->
  let cs := columns df in
  let parsed := rows (fst (nettoyer_fichier parse df)) in
  let cands := filter (fun r => cell_eqb (key cs r) k && index_ok cs r) parsed in
  find (fun r => cell_eqb (key cs r) k)
    (rows (snd (snd (nettoyer_fichier parse df)))) =
  find (fun r => forallb (fun r' => date_value cs r' <=? date_value cs r)%Z cands)
    cands.
Proof.
  intros H cs parsed cands. subst parsed cands.
  rewrite (nettoyer_fichier_ok parse df H). simpl. fold cs.
  rewrite find_drop_dup. simpl. rewrite find_filter, find_sort, best_first_min.
  set (L := filter _ (filter _ (rows (assign_column df DATE (to_datetime parse))))).
  set (L' := filter _ (filter _ (rows (assign_column df DATE (to_datetime parse))))).
  assert (EL : L = L').
  { subst L L'. apply filter_ext. intro r. apply andb_comm. }
  rewrite <- EL. apply find_ext_in. intros r Hr.
  apply forallb_ext_in. intros r' Hr'.
  subst L. apply filter_In in Hr as [Hr Kr], Hr' as [Hr' Kr'].
  apply andb_true_iff in Kr as [_ Kr], Kr' as [_ Kr'].
  apply cell_eqb_true in Kr, Kr'.
  destruct (parsed_rows_dated parse df r Hr) as [a Ha].
  destruct (parsed_rows_dated parse df r' Hr') as [b Hb].
  unfold date_value. fold cs in Ha, Hb. rewrite Ha, Hb.
  apply row_le_same_key; congruence.
Qed.

(** ** Claims on [nettoyer_fichier] *)

(** C3 (counterexample): on the three K1 rows, with dates read as
    [YYYYMMDD], the row kept for K1 is not the 2023-12-01 row. *)
Lemma nettoyer_fichier_K1_not_december :
  ~ In (0%nat, [Str "K1"; Timestamp 20231201; Str "50"])
      (rows (snd (snd (nettoyer_fichier iso_parse t3)))) /\
  ~ In (2%nat, [Str "K1"; Timestamp 20231201; Str "50"])
      (rows (snd (snd (nettoyer_fichier iso_parse t3)))).
Proof. vm_compute. split; intros [H|H]; (discriminate || exact H). Qed.

(** C3 (amended): whatever day-first or ISO reading the parser makes of
    the three dates, as long as it dates 2023-12-01 before 2024-01-10, the
    row kept for K1 is the 2024-01-10 row with Index "100": the most
    recent row with a filled Index. *)
Theorem nettoyer_fichier_K1_january (parse : string -> option Z) (a b c : Z) :
  parse "2024-01-10" = Some a ->
  parse "2024-02-05" = Some b ->
  parse "2023-12-01" = Some c ->
  (c < a)%Z ->
  find (fun r => cell_eqb (key (columns t3) r) (Str "K1"))
    (rows (snd (snd (nettoyer_fichier parse t3)))) =
  Some (0%nat, [Str "K1"; Timestamp a; Str "100"]).
Proof.
  intros Ha Hb Hc Hca.
  rewrite (nettoyer_fichier_kept_row parse t3 (Str "K1") eq_refl).
  rewrite (nettoyer_fichier_ok parse t3 eq_refl).
  unfold t3, releves, row_of. simpl.
  rewrite Ha, Hb, Hc. cbv -[Z.leb].
  rewrite Z.leb_refl, (proj2 (Z.leb_le c a) ltac:(lia)).
  reflexivity.
Qed.

(** C4: the frame [nettoyer_fichier] returns has at most one row per
    meter number, and each of its Index values is present and not blank
    after [strip()]. *)
Theorem nettoyer_fichier_unique_valid (parse : string -> option Z)
    (df : DataFrame) :
  let out := snd (snd (nettoyer_fichier parse df)) in
  NoDup (column out KEY) /\
  Forall (fun c => notna c = true /\ strip (astype_str c) <> "")
    (column out INDEX).
Proof.
  intros out. subst out.
  destruct (forallb (has_col df) colonnes_requises) eqn:H.
  - rewrite (nettoyer_fichier_ok parse df H). simpl. split.
    + apply drop_dup_nodup.
    + unfold column. simpl. apply Forall_map, Forall_forall.
      intros r Hr. apply drop_dup_incl, filter_In in Hr as [_ Hr].
      unfold index_ok in Hr. apply andb_true_iff in Hr as [Hn Hs].
      split; [exact Hn|]. intro E. rewrite E in Hs. discriminate.
  - unfold nettoyer_fichier. rewrite H. simpl. split; constructor.
Qed.

(** C7: [nettoyer_fichier] is idempotent on the frame it returns. *)
Theorem nettoyer_fichier_idempotent (parse : string -> option Z)
    (df : DataFrame) :
  snd (snd (nettoyer_fichier parse (snd (snd (nettoyer_fichier parse df))))) =
  snd (snd (nettoyer_fichier parse df)).
Proof.
  destruct (forallb (has_col df) colonnes_requises) eqn:H.
  2:{ assert (E : snd (snd (nettoyer_fichier parse df)) = empty_frame)
        by (unfold nettoyer_fichier; rewrite H; reflexivity).
      rewrite E. reflexivity. }
  rewrite (nettoyer_fichier_ok parse df H). simpl.
  set (cs := columns df).
  set (rows2 := filter (fun r => notna (date cs r))
                  (rows (assign_column df DATE (to_datetime parse)))).
  set (D := drop_dup cs [] (filter (index_ok cs) (sort cs rows2))).
  assert (HD : forall r, In r D ->
            In r rows2 /\ index_ok cs r = true).
  { intros r Hr. apply drop_dup_incl, filter_In in Hr as [Hr Hi].
    split; [|exact Hi]. eapply Permutation_in; [apply sort_perm | exact Hr]. }
  assert (H' : forallb (has_col (mkDF cs D)) colonnes_requises = true)
    by exact H.
  rewrite (nettoyer_fichier_ok parse (mkDF cs D) H'). simpl.
  assert (EA : assign_column (mkDF cs D) DATE (to_datetime parse) = mkDF cs D).
  { unfold assign_column. simpl.
    destruct (col_index cs DATE) as [i|] eqn:Ei; [|reflexivity].
    f_equal. rewrite <- (map_id D) at 2. apply map_ext_in.
    intros r Hr. destruct (HD r Hr) as [Hr2 _].
    destruct (parsed_rows_dated parse df r Hr2) as [d Hd].
    fold cs in Hd. unfold date, get in Hd. rewrite Ei in Hd.
    rewrite Hd. simpl. rewrite <- Hd, replace_nth_nth.
    destruct r; reflexivity. }
  rewrite EA. simpl.
  assert (Hsorted : StronglySorted (R_le cs) D).
  { apply drop_dup_sorted, filter_sorted, sort_sorted. }
  rewrite (filter_all (fun r => notna (date cs r)) D).
  2:{ intros r Hr. destruct (HD r Hr) as [Hr2 _].
      destruct (parsed_rows_dated parse df r Hr2) as [d Hd].
      fold cs in Hd. rewrite Hd. reflexivity. }
  rewrite (sort_id cs D Hsorted).
  rewrite (filter_all (index_ok cs) D) by (intros r Hr; apply HD, Hr).
  rewrite drop_dup_id; [reflexivity | apply drop_dup_nodup |].
  apply Forall_forall. reflexivity.
Qed.

Lemma nettoyer_fichier_K1_january_witness :
  find (fun r => cell_eqb (key (columns t3) r) (Str "K1"))
    (rows (snd (snd (nettoyer_fichier iso_parse t3)))) =
  Some (0%nat, [Str "K1"; Timestamp 20240110; Str "100"]).
Proof.
  apply (nettoyer_fichier_K1_january iso_parse 20240110 20240205 20231201);
    [vm_compute; reflexivity | vm_compute; reflexivity
    | vm_compute; reflexivity | lia].
Defined.

(** C8 (code bug): [nettoyer_fichier] mutates the caller's frame: the
    Date column is replaced by parsed timestamps and the rows whose date
    does not parse are removed from it, so the app's "Lignes avant" count,
    read from [df_initial] after the call, is 1 instead of 2. *)
Theorem nettoyer_fichier_mutates_caller_frame :
  fst (nettoyer_fichier iso_parse t8) =
    releves [row_of 1 (Str "B") (Timestamp 20240110) (Str "2")] /\
  fst (nettoyer_fichier iso_parse t8) <> t8 /\
  length (rows t8) = 2%nat /\
  lignes_originales iso_parse t8 = 1%nat.
Proof.
  vm_compute. repeat split; try reflexivity. discriminate.
Qed.

(** C9 (counterexample): rows 0 and 1 share the key K1, the date and a
    filled Index, yet neither is kept: row 2, of the same key and a later
    date, is. *)
Lemma nettoyer_fichier_tie_not_kept :
  rows (snd (snd (nettoyer_fichier iso_parse t9))) =
    [row_of 2 (Str "K1") (Timestamp 2) (Str "c")] /\
  ~ In (row_of 0 (Str "K1") (Timestamp 1) (Str "a"))
      (rows (snd (snd (nettoyer_fichier iso_parse t9)))).
Proof.
  vm_compute. split; [reflexivity|]. intros [H|H]; [discriminate|exact H].
Qed.

(** C9 (amended): for a frame with the three columns and any key [k],
    the row kept for [k] is, among the rows of key [k] whose date parsed
    and whose Index is filled, the first in the caller's order of those
    carrying the latest date; so of rows tied at the latest date the
    earliest is kept. *)
Theorem nettoyer_fichier_stable_tie (parse : string -> option Z)
    (df : DataFrame) (k : cell) :
  forallb (has_col df) colonnes_requises = true ->
  let cs := columns df in
  let parsed := rows (fst (nettoyer_fichier parse df)) in
  let cands := filter (fun r => cell_eqb (key cs r) k && index_ok cs r) parsed in
  find (fun r => cell_eqb (key cs r) k)
    (rows (snd (snd (nettoyer_fichier parse df)))) =
  find (fun r => forallb (fun r' => date_value cs r' <=? date_value cs r)%Z cands)
    cands.
Proof. apply nettoyer_fichier_kept_row. Qed.

Lemma nettoyer_fichier_stable_tie_witness :
  forallb (has_col t9) colonnes_requises = true /\
  find (fun r => cell_eqb (key (columns t9) r) (Str "K1"))
    (rows (snd (snd (nettoyer_fichier iso_parse t9)))) =
  Some (row_of 2 (Str "K1") (Timestamp 2) (Str "c")).
Proof.
  split; [reflexivity|].
  rewrite (nettoyer_fichier_stable_tie iso_parse t9 (Str "K1") eq_refl).
  vm_compute. reflexivity.
Defined.

(** ** Claims on [comparer_fichiers] *)

(** C5: when both frames have [N° compteur], [comparer_fichiers] returns,
    in their order and with their multiplicity, exactly the rows of the
    first frame whose meter number is absent from the second. *)
Theorem comparer_fichiers_missing_rows (df1 df2 : DataFrame) :
  has_col df1 KEY = true -> has_col df2 KEY = true ->
  comparer_fichiers df1 df2 =
  ([], mkDF (columns df1)
         (filter (fun r => negb (mem (get (columns df1) (snd r) KEY)
                                   (column df2 KEY)))
            (rows df1))).
Proof.
  intros H1 H2. unfold comparer_fichiers. rewrite H1, H2. simpl.
  do 2 f_equal. apply filter_ext_in. intros r Hr.
  rewrite mem_set_diff.
  assert (E : mem (get (columns df1) (snd r) KEY) (column df1 KEY) = true).
  { apply mem_In. unfold column.
    exact (in_map (fun r => get (columns df1) (snd r) KEY) _ _ Hr). }
  rewrite E. reflexivity.
Qed.

Lemma comparer_fichiers_missing_rows_witness :
  comparer_fichiers (keys_frame [1; 2; 3; 1]%Z) (keys_frame [2; 3; 4]%Z) =
  ([], mkDF [KEY] [(0%nat, [Int 1]); (3%nat, [Int 1])]).
Proof.
  rewrite comparer_fichiers_missing_rows by reflexivity.
  vm_compute. reflexivity.
Defined.

(** ** The steps of [ajouter_diametres] *)

Lemma filter_map_comm {A B} (f : B -> bool) (g : A -> B) l :
  filter f (map g l) = map g (filter (fun x => f (g x)) l).
Proof.
  induction l as [|x l IH]; simpl; [reflexivity|].
  destruct (f (g x)); simpl; rewrite IH; reflexivity.
Qed.

Lemma map_snd_combine {A B} (a : list A) (b : list B) :
  length a = length b -> map snd (combine a b) = b.
Proof.
  revert b. induction a as [|x a IH]; intros [|y b]; simpl; intros H;
    try reflexivity; try discriminate.
  rewrite IH; [reflexivity | lia].
Qed.

Lemma map_combine_snd {A B C} (f : B -> C) (a : list A) (b : list B) :
  map (fun p => (fst p, f (snd p))) (combine a b) = combine a (map f b).
Proof.
  revert b. induction a as [|x a IH]; intros [|y b]; simpl; try reflexivity.
  rewrite IH. reflexivity.
Qed.

Lemma combine_app {A B} (a b : list A) (c d : list B) :
  length a = length c ->
  combine (a ++ b) (c ++ d) = (combine a c ++ combine b d)%list.
Proof.
  revert c. induction a as [|x a IH]; intros [|y c]; simpl; intros H;
    try reflexivity; try discriminate.
  rewrite IH; [reflexivity | lia].
Qed.

Lemma length_flat_map' {A B} (f : A -> list B) l :
  length (flat_map f l) = list_sum (map (fun x => length (f x)) l).
Proof.
  induction l as [|x l IH]; simpl; [reflexivity|].
  rewrite length_app, IH. reflexivity.
Qed.

Lemma merge_left_rows left right lk rk M :
  merge_left left right lk rk = Some M ->
  map snd (rows M) =
  flat_map (fun l =>
    match filter (fun r => cell_eqb (get (columns right) (snd r) rk)
                             (get (columns left) (snd l) lk)) (rows right) with
    | [] => [(snd l ++ repeat NaN (length (columns right)))%list]
    | ms => map (fun m => (snd l ++ snd m)%list) ms
    end) (rows left).
Proof.
  unfold merge_left.
  destruct (new_dups _ _ _ _ ++ new_dups _ _ _ _)%list; [|discriminate].
  intro H. injection H as <-. simpl.
  apply map_snd_combine. apply length_seq.
Qed.

Lemma select_matches df_d k :
  filter (fun r => cell_eqb (get [NUMERO; DIAMETRE] (snd r) NUMERO) k)
    (rows (select df_d [NUMERO; DIAMETRE])) =
  map (fun r => (fst r, [get (columns df_d) (snd r) NUMERO;
                         get (columns df_d) (snd r) DIAMETRE]))
    (matches df_d k).
Proof.
  unfold select, matches. simpl. rewrite filter_map_comm. reflexivity.
Qed.

Lemma drop_column_rows df c df' :
  drop_column df c = Some df' -> length (rows df') = length (rows df).
Proof.
  unfold drop_column. destruct (mem_str c (columns df)); [|discriminate].
  intro H. injection H as <-. simpl. apply length_map.
Qed.

(** ** Claims on [ajouter_diametres] *)

(** C1 (counterexample): one primary row whose meter number matches two
    lookup rows gives two output rows. *)
Lemma ajouter_diametres_two_rows_for_one :
  ajouter_diametres (mkDF [KEY] [(0%nat, [Str "A"])])
    (mkDF [NUMERO; DIAMETRE] [(0%nat, [Str "A"; Int 20]);
                              (1%nat, [Str "A"; Int 30])]) =
  Returned [] (mkDF [KEY; DIAMETRE] [(0%nat, [Str "A"; Int 20]);
                                     (1%nat, [Str "A"; Int 30])]).
Proof. vm_compute. reflexivity. Qed.

(** C1 (amended): when [ajouter_diametres] returns a merged frame, each
    primary row gives as many rows as lookup rows match its meter number,
    and one when none does; the row count equals the primary's exactly
    when no meter number matches several lookup rows. *)
Theorem ajouter_diametres_row_count (df_e df_d : DataFrame)
    (msgs : list string) (out : DataFrame) :
  has_col df_e KEY = true ->
  has_col df_d NUMERO = true -> has_col df_d DIAMETRE = true ->
  ajouter_diametres df_e df_d = Returned msgs out ->
  length (rows out) =
  list_sum (map (fun r => Nat.max 1 (length (matches df_d
                                        (get (columns df_e) (snd r) KEY))))
              (rows df_e)).
Proof.
  intros Hk Hn Hd H. unfold ajouter_diametres in H.
  rewrite Hk, Hn, Hd in H. simpl in H.
  destruct (merge_left _ _ _ _) as [M|] eqn:EM; [|discriminate].
  destruct (drop_column M NUMERO) as [M'|] eqn:ED; [|discriminate].
  injection H as _ <-.
  rewrite (drop_column_rows _ _ _ ED), <- (length_map snd),
    (merge_left_rows _ _ _ _ _ EM), length_flat_map'.
  f_equal. apply map_ext. intro r. simpl columns.
  rewrite select_matches.
  destruct (matches df_d (get (columns df_e) (snd r) KEY)); simpl;
    [reflexivity|]. rewrite !length_map. lia.
Qed.

Lemma left_labels_not_numero lc c :
  mem_str NUMERO lc = false -> In c (left_labels lc) -> c <> NUMERO.
Proof.
  intros HnoN Hc ->. unfold left_labels in Hc.
  apply in_map_iff in Hc as (c & E & Hc).
  destruct (mem_str c [NUMERO; DIAMETRE]) eqn:Ec.
  - unfold mem_str in Ec. simpl in Ec.
    destruct (String.eqb c NUMERO) eqn:E1; [|destruct (String.eqb c DIAMETRE) eqn:E2].
    + apply String.eqb_eq in E1. subst c. discriminate.
    + apply String.eqb_eq in E2. subst c. discriminate.
    + discriminate.
  - subst c. apply mem_str_In in Hc. congruence.
Qed.

Lemma right_label_not_numero lc : right_label lc <> NUMERO.
Proof. unfold right_label. destruct (mem_str DIAMETRE lc); discriminate. Qed.

Lemma length_left_labels lc : length (left_labels lc) = length lc.
Proof. apply length_map. Qed.

(** Dropping [Numéro de compteur] from a merged row. *)
Lemma keep_merged lc (l : list cell) k d :
  mem_str NUMERO lc = false -> length l = length lc ->
  keep_cells (left_labels lc ++ [NUMERO; right_label lc]) NUMERO (l ++ [k; d]) =
  (l ++ [d])%list.
Proof.
  intros HnoN Hl. unfold keep_cells.
  rewrite combine_app by (rewrite length_left_labels; symmetry; exact Hl).
  rewrite filter_app, map_app. f_equal.
  - rewrite filter_all;
      [apply map_snd_combine; rewrite length_left_labels; symmetry; exact Hl|].
    intros [c x] Hp. apply in_combine_l in Hp. simpl.
    apply negb_true_iff, String.eqb_neq. eapply left_labels_not_numero; eauto.
  - simpl. try rewrite String.eqb_refl. simpl.
    destruct (String.eqb (right_label lc) NUMERO) eqn:E.
    + apply String.eqb_eq in E. exfalso. exact (right_label_not_numero lc E).
    + reflexivity.
Qed.

Lemma map_snd_pair {A B C} (f : B -> C) (l : list (A * B)) :
  map snd (map (fun r => (fst r, f (snd r))) l) = map f (map snd l).
Proof. rewrite !map_map. reflexivity. Qed.

Lemma block_keep lc df_d (l : nat * list cell) :
  mem_str NUMERO lc = false -> length (snd l) = length lc ->
  map (keep_cells (left_labels lc ++ [NUMERO; right_label lc]) NUMERO)
    (match filter (fun r => cell_eqb (get [NUMERO; DIAMETRE] (snd r) NUMERO)
                              (get lc (snd l) KEY))
             (rows (select df_d [NUMERO; DIAMETRE])) with
     | [] => [(snd l ++ repeat NaN (length [NUMERO; DIAMETRE]))%list]
     | ms => map (fun m => (snd l ++ snd m)%list) ms
     end) =
  map (fun d => (snd l ++ [d])%list) (joined_diameters df_d (get lc (snd l) KEY)).
Proof.
  intros HnoN Hl. rewrite select_matches. unfold joined_diameters.
  destruct (matches df_d (get lc (snd l) KEY)) as [|m ms]; simpl.
  - rewrite keep_merged by assumption. reflexivity.
  - rewrite keep_merged by assumption. f_equal.
    rewrite !map_map. apply map_ext. intro m'. apply keep_merged; assumption.
Qed.

Lemma ajouter_diametres_shape (df_e df_d : DataFrame) :
  has_col df_e KEY = true ->
  has_col df_d NUMERO = true -> has_col df_d DIAMETRE = true ->
  mem_str NUMERO (columns df_e) = false ->
  new_dups [] [] (columns df_e) (left_labels (columns df_e)) = [] ->
  Forall (fun r => length (snd r) = length (columns df_e)) (rows df_e) ->
  exists out,
    ajouter_diametres df_e df_d = Returned [] out /\
    columns out = (left_labels (columns df_e) ++ [right_label (columns df_e)])%list /\
    map snd (rows out) = joined_cells df_e df_d.
Proof.
  intros Hk Hn Hd HnoN Hdup Hwf.
  set (lc := columns df_e) in *.
  unfold ajouter_diametres. rewrite Hk, Hn, Hd. simpl negb. cbv iota beta.
  unfold merge_left. cbv zeta. simpl columns. fold lc.
  change (map (fun c => if mem_str c [NUMERO; DIAMETRE] then (c ++ "_x")%string else c) lc)
    with (left_labels lc).
  assert (Erc : map (fun c => if mem_str c lc then (c ++ "_y")%string else c)
                  [NUMERO; DIAMETRE] = [NUMERO; right_label lc])
    by (simpl; rewrite HnoN; reflexivity).
  rewrite Erc, Hdup.
  assert (Er : new_dups [] [] [NUMERO; DIAMETRE] [NUMERO; right_label lc] = [])
    by (unfold right_label; destruct (mem_str DIAMETRE lc); reflexivity).
  rewrite Er. cbn [app].
  unfold drop_column. simpl columns.
  assert (Emem : mem_str NUMERO (left_labels lc ++ [NUMERO; right_label lc]) = true)
    by (apply mem_str_In, in_or_app; right; left; reflexivity).
  rewrite Emem.
  eexists. split; [reflexivity|]. simpl. split.
  - rewrite filter_app. f_equal.
    + apply filter_all. intros c Hc. apply negb_true_iff, String.eqb_neq.
      eapply left_labels_not_numero; eauto.
    + simpl. try rewrite String.eqb_refl. simpl.
      destruct (String.eqb (right_label lc) NUMERO) eqn:E; [|reflexivity].
      apply String.eqb_eq in E. exfalso. exact (right_label_not_numero lc E).
  - rewrite map_snd_pair.
    rewrite map_snd_combine by apply length_seq.
    unfold joined_cells. fold lc. clear -Hwf HnoN.
    induction (rows df_e) as [|l ls IH]; [reflexivity|].
    inversion Hwf as [|? ? Hl Hwf']; subst. simpl flat_map.
    rewrite map_app. f_equal; [|apply IH; exact Hwf'].
    apply block_keep; assumption.
Qed.

Lemma new_dups_same seen l : new_dups seen seen l l = [].
Proof.
  revert seen. induction l as [|x l IH]; intro seen; simpl; [reflexivity|].
  rewrite IH. destruct (mem_str x seen); reflexivity.
Qed.

Lemma new_dups_nodup o r so sn :
  NoDup r -> (forall x, In x r -> ~ In x sn) -> new_dups so sn o r = [].
Proof.
  revert r so sn. induction o as [|o os IH]; intros [|n r] so sn Hnd Hsn;
    simpl; try reflexivity.
  inversion Hnd as [|? ? Hn Hnd']; subst.
  destruct (mem_str n sn) eqn:E.
  - apply mem_str_In in E. exfalso. exact (Hsn n (or_introl eq_refl) E).
  - simpl. apply IH; [exact Hnd'|].
    intros x Hx [<-|Hx']; [exact (Hn Hx) | exact (Hsn x (or_intror Hx) Hx')].
Qed.

Lemma col_index_lt cs c i : col_index cs c = Some i -> (i < length cs)%nat.
Proof.
  revert i. induction cs as [|c' cs IH]; simpl; intros i; [discriminate|].
  destruct (String.eqb c c'); [intro H; injection H as <-; lia|].
  destruct (col_index cs c) as [j|] eqn:E; simpl; [|discriminate].
  intro H. injection H as <-. specialize (IH j eq_refl). lia.
Qed.

Lemma col_index_app_some cs tl c i :
  col_index cs c = Some i -> col_index (cs ++ tl) c = Some i.
Proof.
  revert i. induction cs as [|c' cs IH]; simpl; intros i; [discriminate|].
  destruct (String.eqb c c'); [tauto|].
  destruct (col_index cs c) as [j|] eqn:E; simpl; [|discriminate].
  intro H. rewrite (IH j eq_refl). exact H.
Qed.

Lemma col_index_app_last cs c :
  mem_str c cs = false -> col_index (cs ++ [c]) c = Some (length cs).
Proof.
  induction cs as [|c' cs IH]; simpl; intros H.
  - rewrite String.eqb_refl. reflexivity.
  - unfold mem_str in H. simpl in H. apply orb_false_iff in H as [H1 H2].
    rewrite H1, IH by exact H2. reflexivity.
Qed.

Lemma get_app_last cs c (cells : list cell) d :
  mem_str c cs = false -> length cells = length cs ->
  get (cs ++ [c]) (cells ++ [d]) c = d.
Proof.
  intros H Hl. unfold get. rewrite col_index_app_last by exact H.
  rewrite app_nth2 by lia. rewrite <- Hl, Nat.sub_diag. reflexivity.
Qed.

Lemma get_app_prefix cs tl c (cells tc : list cell) i :
  col_index cs c = Some i -> length cells = length cs ->
  get (cs ++ tl) (cells ++ tc) c = get cs cells c.
Proof.
  intros H Hl. unfold get. rewrite (col_index_app_some _ _ _ _ H), H.
  apply app_nth1. apply col_index_lt in H. lia.
Qed.

Lemma has_col_mem_str df c : has_col df c = mem_str c (columns df).
Proof. reflexivity. Qed.

Lemma left_labels_id lc :
  mem_str NUMERO lc = false -> mem_str DIAMETRE lc = false ->
  left_labels lc = lc.
Proof.
  intros HN HD. unfold left_labels. rewrite <- (map_id lc) at 2.
  apply map_ext_in. intros c Hc.
  destruct (mem_str c [NUMERO; DIAMETRE]) eqn:E; [|reflexivity].
  exfalso. unfold mem_str in E. simpl in E.
  destruct (String.eqb c NUMERO) eqn:E1;
    [|destruct (String.eqb c DIAMETRE) eqn:E2; [|discriminate]].
  - apply String.eqb_eq in E1. subst. apply mem_str_In in Hc. congruence.
  - apply String.eqb_eq in E2. subst. apply mem_str_In in Hc. congruence.
Qed.

(** C2 (counterexample): the primary row of key A, matched by two lookup
    rows, gives two output rows, one per match, not one. *)
Lemma ajouter_diametres_no_single_match :
  exists out,
    ajouter_diametres (mkDF [KEY] [(0%nat, [Str "A"])])
      (mkDF [NUMERO; DIAMETRE] [(0%nat, [Str "A"; Int 20]);
                                (1%nat, [Str "A"; Int 30])]) = Returned [] out /\
    column out DIAMETRE = [Int 20; Int 30].
Proof. eexists. split; [vm_compute; reflexivity | vm_compute; reflexivity]. Qed.

(** C2 (amended): when the primary has neither a [Diametre] nor a
    [Numéro de compteur] column, [ajouter_diametres] appends one
    [Diametre] column, and each primary row, in order, gives one output
    row per matching lookup row, in lookup order: the primary row's cells
    followed by that lookup row's diameter; a primary row no lookup row
    matches gives a single row, its cells followed by a missing diameter. *)
Theorem ajouter_diametres_fan_out (df_e df_d : DataFrame) :
  has_col df_e KEY = true ->
  has_col df_d NUMERO = true -> has_col df_d DIAMETRE = true ->
  mem_str NUMERO (columns df_e) = false ->
  mem_str DIAMETRE (columns df_e) = false ->
  Forall (fun r => length (snd r) = length (columns df_e)) (rows df_e) ->
  exists out,
    ajouter_diametres df_e df_d = Returned [] out /\
    columns out = (columns df_e ++ [DIAMETRE])%list /\
    map snd (rows out) =
    flat_map (fun r => map (fun d => (snd r ++ [d])%list)
                         (joined_diameters df_d (get (columns df_e) (snd r) KEY)))
      (rows df_e) /\
    column out DIAMETRE =
    flat_map (fun r => joined_diameters df_d (get (columns df_e) (snd r) KEY))
      (rows df_e).
Proof.
  intros Hk Hn Hd HN HD Hwf.
  assert (HL := left_labels_id _ HN HD).
  destruct (ajouter_diametres_shape df_e df_d Hk Hn Hd HN) as (out & Eo & Ec & Er);
    [rewrite HL; apply new_dups_same | exact Hwf |].
  exists out. unfold right_label in Ec. rewrite HD, HL in Ec.
  split; [exact Eo|]. split; [exact Ec|]. split; [exact Er|].
  unfold column. rewrite Ec, <- (map_map snd (fun cells => get _ cells DIAMETRE)), Er.
  unfold joined_cells. clear -Hwf HD.
  induction (rows df_e) as [|l ls IH]; [reflexivity|].
  inversion Hwf as [|? ? Hl Hwf']; subst. simpl.
  rewrite map_app, IH by exact Hwf'. f_equal.
  rewrite map_map. rewrite <- (map_id (joined_diameters _ _)) at 2.
  apply map_ext. intro d. apply get_app_last; assumption.
Qed.

Lemma left_labels_rename lc :
  mem_str NUMERO lc = false ->
  left_labels lc =
  map (fun c => if String.eqb c DIAMETRE then "Diametre_x" else c) lc.
Proof.
  intros HN. unfold left_labels. apply map_ext_in. intros c Hc.
  unfold mem_str at 1. simpl.
  destruct (String.eqb c NUMERO) eqn:E1.
  - apply String.eqb_eq in E1. subst. apply mem_str_In in Hc. congruence.
  - destruct (String.eqb c DIAMETRE) eqn:E2; [|reflexivity].
    apply String.eqb_eq in E2. subst. reflexivity.
Qed.

Lemma col_index_rename lc :
  mem_str "Diametre_x" lc = false ->
  col_index (map (fun c => if String.eqb c DIAMETRE then "Diametre_x" else c) lc)
    "Diametre_x" = col_index lc DIAMETRE.
Proof.
  induction lc as [|c lc IH]; intros H; [reflexivity|].
  unfold mem_str in H. cbn [existsb] in H. apply orb_false_iff in H as [H1 H2].
  cbn [map col_index]. rewrite (String.eqb_sym DIAMETRE c).
  destruct (String.eqb c DIAMETRE); [reflexivity|].
  rewrite H1, IH by exact H2. reflexivity.
Qed.

Lemma mem_str_rename_y lc :
  mem_str "Diametre_y" lc = false ->
  mem_str "Diametre_y"
    (map (fun c => if String.eqb c DIAMETRE then "Diametre_x" else c) lc) = false.
Proof.
  induction lc as [|c lc IH]; intros H; [reflexivity|].
  unfold mem_str in H |- *. cbn [map existsb] in H |- *. apply orb_false_iff in H as [H1 H2].
  apply orb_false_iff. split; [|exact (IH H2)].
  destruct (String.eqb c DIAMETRE); [reflexivity|exact H1].
Qed.

Lemma rename_nodup lc :
  NoDup lc -> mem_str "Diametre_x" lc = false ->
  NoDup (map (fun c => if String.eqb c DIAMETRE then "Diametre_x" else c) lc).
Proof.
  intros Hnd Hx. apply NoDup_map_NoDup_ForallPairs; [|exact Hnd].
  intros a b Ha Hb.
  destruct (String.eqb a DIAMETRE) eqn:Ea, (String.eqb b DIAMETRE) eqn:Eb;
    apply String.eqb_eq in Ea || apply String.eqb_neq in Ea;
    apply String.eqb_eq in Eb || apply String.eqb_neq in Eb; intros E.
  - congruence.
  - subst b. apply mem_str_In in Hb. congruence.
  - subst a. apply mem_str_In in Ha. congruence.
  - exact E.
Qed.

(** C10: when the primary already has a [Diametre] column (and no
    [Numéro de compteur], [Diametre_x] or [Diametre_y] column, with
    distinct labels), [ajouter_diametres] returns a frame with no
    [Diametre] column: the primary's column is renamed [Diametre_x], in
    place, and keeps its values; the joined diameters are appended as
    [Diametre_y]. *)
Theorem ajouter_diametres_suffixes (df_e df_d : DataFrame) :
  has_col df_e KEY = true ->
  has_col df_d NUMERO = true -> has_col df_d DIAMETRE = true ->
  has_col df_e DIAMETRE = true ->
  mem_str NUMERO (columns df_e) = false ->
  mem_str "Diametre_x" (columns df_e) = false ->
  mem_str "Diametre_y" (columns df_e) = false ->
  NoDup (columns df_e) ->
  Forall (fun r => length (snd r) = length (columns df_e)) (rows df_e) ->
  exists out,
    ajouter_diametres df_e df_d = Returned [] out /\
    columns out =
    (map (fun c => if String.eqb c DIAMETRE then "Diametre_x" else c) (columns df_e)
     ++ ["Diametre_y"])%list /\
    ~ In DIAMETRE (columns out) /\
    column out "Diametre_x" =
    flat_map (fun r => map (fun _ => get (columns df_e) (snd r) DIAMETRE)
                         (joined_diameters df_d (get (columns df_e) (snd r) KEY)))
      (rows df_e) /\
    column out "Diametre_y" =
    flat_map (fun r => joined_diameters df_d (get (columns df_e) (snd r) KEY))
      (rows df_e).
Proof.
  intros Hk Hn Hd HD HN Hx Hy Hnd Hwf.
  assert (HL := left_labels_rename _ HN).
  destruct (ajouter_diametres_shape df_e df_d Hk Hn Hd HN) as (out & Eo & Ec & Er).
  { rewrite HL. apply new_dups_nodup; [apply rename_nodup; assumption|].
    intros x _ []. }
  { exact Hwf. }
  exists out. unfold right_label in Ec. rewrite has_col_mem_str in HD.
  rewrite HD, HL in Ec.
  split; [exact Eo|]. split; [exact Ec|]. split.
  { rewrite Ec. intros Hin. apply in_app_or in Hin as [Hin|[Hin|[]]].
    - apply in_map_iff in Hin as (c & Hc & Hin).
      destruct (String.eqb c DIAMETRE) eqn:E; [discriminate|].
      apply String.eqb_neq in E. congruence.
    - discriminate. }
  destruct (col_index (columns df_e) DIAMETRE) as [i|] eqn:Ei.
  2:{ exfalso. apply mem_str_In in HD. clear -HD Ei.
      induction (columns df_e) as [|c cs IH]; [destruct HD|]. cbn [col_index] in Ei.
      destruct (String.eqb DIAMETRE c) eqn:E; [discriminate|].
      destruct HD as [Hc|HD]; [subst c; rewrite String.eqb_refl in E; discriminate|].
      destruct (col_index cs DIAMETRE); [discriminate|exact (IH HD eq_refl)]. }
  unfold column. rewrite Ec, <- !(map_map snd (fun cells => get _ cells _)), Er.
  unfold joined_cells. clear -Hwf Hx Hy Ei.
  induction (rows df_e) as [|l ls IH]; [split; reflexivity|].
  inversion Hwf as [|? ? Hl Hwf']; subst.
  destruct (IH Hwf') as [IH1 IH2]. simpl. rewrite !map_app, IH1, IH2.
  split; f_equal; rewrite map_map.
  - apply map_ext. intro d.
    rewrite (get_app_prefix _ _ _ _ _ i); [|rewrite col_index_rename; assumption
                                          |rewrite length_map; exact Hl].
    unfold get. rewrite col_index_rename, Ei by exact Hx. reflexivity.
  - rewrite <- (map_id (joined_diameters _ _)) at 2.
    apply map_ext. intro d. apply get_app_last;
      [apply mem_str_rename_y; exact Hy | rewrite length_map; exact Hl].
Qed.

(** C6 (counterexample): a lookup table that has [Numéro de compteur] but
    lacks [Diametre] gets a message that also names
    [Numéro de compteur], a column it has. *)
Lemma ajouter_diametres_names_present_column :
  has_col (mkDF [NUMERO] []) NUMERO = true /\
  has_col (mkDF [NUMERO] []) DIAMETRE = false /\
  exists msg,
    ajouter_diametres (mkDF [KEY] []) (mkDF [NUMERO] []) =
    Returned [msg] empty_frame /\
    contains NUMERO msg = true.
Proof.
  split; [reflexivity|]. split; [reflexivity|].
  eexists. split; vm_compute; reflexivity.
Qed.

(** C6 (amended): on a missing required column each operation returns
    the empty frame and displays one message, and displays none
    otherwise. [nettoyer_fichier]'s message lists exactly its missing
    columns, in the order [N° compteur], [Date], [Index];
    [comparer_fichiers]'s names [N° compteur] without saying which file
    lacks it; [ajouter_diametres] checks the primary first and then
    displays a fixed message naming both lookup columns, whichever is
    missing. *)
Theorem schema_errors_signalled (parse : string -> option Z)
    (df df1 df2 df_e df_d : DataFrame) :
  (forallb (has_col df) colonnes_requises = false ->
   snd (nettoyer_fichier parse df) =
   (["Erreur : il manque les colonnes suivantes : "
       ++ join ", " (filter (fun c => negb (has_col df c)) colonnes_requises)],
    empty_frame)) /\
  (forallb (has_col df) colonnes_requises = true ->
   fst (snd (nettoyer_fichier parse df)) = []) /\
  (has_col df1 KEY && has_col df2 KEY = false ->
   comparer_fichiers df1 df2 =
   (["La colonne 'N° compteur' doit exister dans les deux fichiers."],
    empty_frame)) /\
  (has_col df1 KEY && has_col df2 KEY = true ->
   fst (comparer_fichiers df1 df2) = []) /\
  (has_col df_e KEY = false ->
   ajouter_diametres df_e df_d =
   Returned ["Le fichier d'extraction doit avoir une colonne 'N° compteur'."]
     empty_frame) /\
  (has_col df_e KEY = true ->
   has_col df_d NUMERO && has_col df_d DIAMETRE = false ->
   ajouter_diametres df_e df_d =
   Returned ["Le fichier des diamètres doit avoir les colonnes 'Numéro de compteur' et 'Diametre'."]
     empty_frame) /\
  (has_col df_e KEY && has_col df_d NUMERO && has_col df_d DIAMETRE = true ->
   forall msgs out, ajouter_diametres df_e df_d = Returned msgs out -> msgs = []).
Proof.
  repeat split.
  - intros H. unfold nettoyer_fichier. rewrite H. reflexivity.
  - intros H. unfold nettoyer_fichier. rewrite H. reflexivity.
  - intros H. unfold comparer_fichiers.
    destruct (has_col df1 KEY), (has_col df2 KEY); try reflexivity; discriminate.
  - intros H. unfold comparer_fichiers.
    destruct (has_col df1 KEY), (has_col df2 KEY); try reflexivity; discriminate.
  - intros H. unfold ajouter_diametres. rewrite H. reflexivity.
  - intros H1 H2. unfold ajouter_diametres. rewrite H1.
    destruct (has_col df_d NUMERO), (has_col df_d DIAMETRE);
      try reflexivity; discriminate.
  - intros H msgs out E. unfold ajouter_diametres in E.
    apply andb_true_iff in H as [H H3]. apply andb_true_iff in H as [H1 H2].
    rewrite H1, H2, H3 in E. simpl in E.
    destruct (merge_left _ _ _ _); [|discriminate].
    destruct (drop_column _ _); [|discriminate].
    injection E as <- _. reflexivity.
Qed.

Lemma schema_errors_signalled_witness :
  snd (nettoyer_fichier iso_parse (mkDF [KEY] [])) =
  (["Erreur : il manque les colonnes suivantes : Date, Index"], empty_frame) /\
  ajouter_diametres (mkDF [KEY] []) (mkDF [NUMERO] []) =
  Returned ["Le fichier des diamètres doit avoir les colonnes 'Numéro de compteur' et 'Diametre'."]
    empty_frame.
Proof.
  destruct (schema_errors_signalled iso_parse (mkDF [KEY] []) (mkDF [KEY] [])
              (mkDF [KEY] []) (mkDF [KEY] []) (mkDF [NUMERO] []))
    as (Hn & _ & _ & _ & _ & Ha & _).
  split.
  - rewrite Hn by reflexivity. reflexivity.
  - apply Ha; reflexivity.
Defined.

(** The example of C1: a primary row whose meter number appears twice in
    the lookup. *)
Lemma ajouter_diametres_row_count_witness :
  ajouter_diametres ex_primary ex_lookup =
  Returned [] (mkDF [KEY; DIAMETRE] [(0%nat, [Str "A"; Int 20]);
                                     (1%nat, [Str "A"; Int 30])]) /\
  length (rows (mkDF [KEY; DIAMETRE] [(0%nat, [Str "A"; Int 20]);
                                      (1%nat, [Str "A"; Int 30])])) =
  list_sum (map (fun r => Nat.max 1 (length (matches ex_lookup
                                          (get (columns ex_primary) (snd r) KEY))))
              (rows ex_primary)).
Proof.
  assert (E : ajouter_diametres ex_primary ex_lookup =
              Returned [] (mkDF [KEY; DIAMETRE] [(0%nat, [Str "A"; Int 20]);
                                                 (1%nat, [Str "A"; Int 30])]))
    by (vm_compute; reflexivity).
  split; [exact E|].
  apply (ajouter_diametres_row_count ex_primary ex_lookup []);
    [reflexivity | reflexivity | reflexivity | exact E].
Defined.

(** A primary frame with [Diametre] and the lookup of C1. *)
Lemma ajouter_diametres_suffixes_witness :
  exists out,
    ajouter_diametres ex_primary_d ex_lookup = Returned [] out /\
    columns out = [KEY; "Diametre_x"; "Diametre_y"] /\
    ~ In DIAMETRE (columns out) /\
    column out "Diametre_x" = [Int 5; Int 5] /\
    column out "Diametre_y" = [Int 20; Int 30].
Proof.
  destruct (ajouter_diametres_suffixes ex_primary_d ex_lookup)
    as (out & E & Ec & Hn & Hx & Hy);
    try reflexivity.
  - repeat constructor; simpl; intuition discriminate.
  - repeat constructor.
  - exists out. rewrite E, Ec, Hx, Hy. repeat split; try reflexivity.
    rewrite <- Ec. exact Hn.
Defined.

(** Two lookup rows for meter A. *)
Lemma ajouter_diametres_fan_out_witness :
  exists out,
    ajouter_diametres ex_primary ex_lookup = Returned [] out /\
    columns out = [KEY; DIAMETRE] /\
    map snd (rows out) = [[Str "A"; Int 20]; [Str "A"; Int 30]] /\
    column out DIAMETRE = [Int 20; Int 30].
Proof.
  destruct (ajouter_diametres_fan_out ex_primary ex_lookup)
    as (out & E & Ec & Hr & Hd); try reflexivity.
  - repeat constructor.
  - exists out. rewrite E, Ec, Hr, Hd. repeat split; reflexivity.
Defined.

(** ** Further properties of the code *)

Lemma mem_str_pair c :
  mem_str c [NUMERO; DIAMETRE] = true -> c = NUMERO \/ c = DIAMETRE.
Proof.
  intros H. apply mem_str_In in H. destruct H as [<-|[<-|[]]]; auto.
Qed.

Lemma left_labels_no_numero lc : ~ In NUMERO (left_labels lc).
Proof.
  unfold left_labels. intros H. apply in_map_iff in H as (c & E & _).
  destruct (mem_str c [NUMERO; DIAMETRE]) eqn:Ec; cbn beta in E; try rewrite Ec in E.
  - apply mem_str_pair in Ec as [->| ->]; discriminate.
  - subst c. vm_compute in Ec. discriminate.
Qed.

Lemma left_labels_nodup lc :
  NoDup lc ->
  mem_str "Numéro de compteur_x" lc = false -> mem_str "Diametre_x" lc = false ->
  NoDup (left_labels lc).
Proof.
  intros Hnd HxN HxD. apply NoDup_map_NoDup_ForallPairs; [|exact Hnd].
  intros a b Ha Hb.
  destruct (mem_str a [NUMERO; DIAMETRE]) eqn:Ea,
           (mem_str b [NUMERO; DIAMETRE]) eqn:Eb; intros E.
  - apply mem_str_pair in Ea as [->| ->]; apply mem_str_pair in Eb as [->| ->];
      try reflexivity; discriminate.
  - exfalso. apply mem_str_pair in Ea as [->| ->]; subst b.
    + apply mem_str_In in Hb. change (mem_str "Numéro de compteur_x" lc = true) in Hb.
      congruence.
    + apply mem_str_In in Hb. change (mem_str "Diametre_x" lc = true) in Hb.
      congruence.
  - exfalso. apply mem_str_pair in Eb as [->| ->]; subst a.
    + apply mem_str_In in Ha. change (mem_str "Numéro de compteur_x" lc = true) in Ha.
      congruence.
    + apply mem_str_In in Ha. change (mem_str "Diametre_x" lc = true) in Ha.
      congruence.
  - exact E.
Qed.

Lemma new_dups_flags o r so sn :
  length o = length r -> NoDup o -> (forall x, In x o -> ~ In x so) ->
  (exists x, In x sn /\ In x r) \/ ~ NoDup r ->
  new_dups so sn o r <> [].
Proof.
  revert r so sn. induction o as [|x o IH]; intros [|n r] so sn Hl Hnd Hso Hd;
    simpl in Hl; try discriminate.
  - exfalso. destruct Hd as [(y & _ & [])|Hd]. apply Hd. constructor.
  - inversion Hnd as [|? ? Hx Hnd']; subst. simpl.
    destruct (mem_str n sn) eqn:En.
    + assert (Ex : mem_str x so = false).
      { destruct (mem_str x so) eqn:E; [|reflexivity].
        apply mem_str_In in E. exfalso. exact (Hso x (or_introl eq_refl) E). }
      rewrite Ex. discriminate.
    + simpl. apply IH; [lia | exact Hnd' | |].
      * intros y Hy [<-|Hy']; [exact (Hx Hy)|exact (Hso y (or_intror Hy) Hy')].
      * destruct Hd as [(y & Hy & [<-|Hr])|Hd].
        -- apply mem_str_In in Hy. congruence.
        -- left. exists y. split; [right; exact Hy|exact Hr].
        -- destruct (in_dec string_dec n r) as [Hn|Hn].
           ++ left. exists n. split; [left; reflexivity|exact Hn].
           ++ right. intro Hr. apply Hd. constructor; assumption.
Qed.

Lemma nodup_map_inj {A B} (f : A -> B) l a b :
  NoDup (map f l) -> In a l -> In b l -> f a = f b -> a = b.
Proof.
  induction l as [|x l IH]; simpl; intros Hnd Ha Hb E; [destruct Ha|].
  inversion Hnd as [|? ? Hx Hnd']; subst.
  destruct Ha as [<-|Ha], Hb as [<-|Hb]; try reflexivity.
  - exfalso. apply Hx. rewrite E. apply in_map, Hb.
  - exfalso. apply Hx. rewrite <- E. apply in_map, Ha.
  - apply IH; assumption.
Qed.

Lemma ajouter_diametres_numero_raises (df_e df_d : DataFrame) :
  has_col df_e KEY = true ->
  has_col df_d NUMERO = true -> has_col df_d DIAMETRE = true ->
  has_col df_e NUMERO = true ->
  NoDup (columns df_e) ->
  mem_str "Numéro de compteur_x" (columns df_e) = false ->
  mem_str "Diametre_x" (columns df_e) = false ->
  ajouter_diametres df_e df_d = Raised KeyError.
Proof.
  intros Hk Hn Hd HN Hnd HxN HxD.
  set (lc := columns df_e) in *.
  unfold ajouter_diametres. rewrite Hk, Hn, Hd. simpl negb. cbv iota beta.
  unfold merge_left. cbv zeta. simpl columns. fold lc.
  change (map (fun c => if mem_str c [NUMERO; DIAMETRE] then (c ++ "_x")%string else c) lc)
    with (left_labels lc).
  rewrite has_col_mem_str in HN. fold lc in HN.
  assert (Erc : map (fun c => if mem_str c lc then (c ++ "_y")%string else c)
                  [NUMERO; DIAMETRE] = [NUMERO ++ "_y"; right_label lc])
    by (simpl; rewrite HN; reflexivity).
  rewrite Erc.
  rewrite (new_dups_nodup _ _ _ _ (left_labels_nodup lc Hnd HxN HxD)) by (intros x _ []).
  assert (Er : new_dups [] [] [NUMERO; DIAMETRE] [NUMERO ++ "_y"; right_label lc] = [])
    by (unfold right_label; destruct (mem_str DIAMETRE lc); reflexivity).
  rewrite Er. cbn [app].
  unfold drop_column. simpl columns.
  assert (Emem : mem_str NUMERO (left_labels lc ++ [NUMERO ++ "_y"; right_label lc]) = false).
  { destruct (mem_str NUMERO (left_labels lc ++ [NUMERO ++ "_y"; right_label lc]))
      eqn:E; [|reflexivity].
    apply mem_str_In, in_app_or in E as [E|[E|[E|[]]]].
    - exfalso. exact (left_labels_no_numero lc E).
    - discriminate.
    - exfalso. exact (right_label_not_numero lc E). }
  change (NUMERO ++ "_y")%string with "Numéro de compteur_y" in Emem.
  rewrite Emem. reflexivity.
Qed.

Lemma comparer_fichiers_ok (df1 df2 : DataFrame) :
  has_col df1 KEY = true -> has_col df2 KEY = true ->
  comparer_fichiers df1 df2 =
  ([], mkDF (columns df1)
         (filter (fun r => negb (mem (get (columns df1) (snd r) KEY)
                                   (column df2 KEY)))
            (rows df1))).
Proof.
  intros H1 H2. unfold comparer_fichiers. rewrite H1, H2. simpl.
  do 2 f_equal. apply filter_ext_in. intros r Hr.
  rewrite mem_set_diff.
  assert (E : mem (get (columns df1) (snd r) KEY) (column df1 KEY) = true).
  { apply mem_In. unfold column.
    exact (in_map (fun r => get (columns df1) (snd r) KEY) _ _ Hr). }
  rewrite E. reflexivity.
Qed.

Lemma drop_dup_length cs seen l : length (drop_dup cs seen l) <= length l.
Proof.
  revert seen. induction l as [|x l IH]; simpl; intros seen; [lia|].
  destruct (mem (key cs x) seen); simpl; [specialize (IH seen)|specialize (IH (key cs x :: seen))];
    lia.
Qed.

Lemma nettoyer_fichier_shrinks parse df :
  length (rows (snd (snd (nettoyer_fichier parse df)))) <=
  length (rows (fst (nettoyer_fichier parse df))).
Proof.
  destruct (forallb (has_col df) colonnes_requises) eqn:H.
  - rewrite (nettoyer_fichier_ok parse df H). simpl.
    etransitivity; [apply drop_dup_length|].
    etransitivity; [apply filter_length_le|].
    rewrite (Permutation_length (sort_perm _ _)). reflexivity.
  - unfold nettoyer_fichier. rewrite H. simpl. lia.
Qed.

Lemma sorted_nodup_lt cs l :
  StronglySorted (R_le cs) l -> NoDup (map (key cs) l) ->
  StronglySorted (fun a b => na_last_cmp true (key cs a) (key cs b) = Lt) l.
Proof.
  induction 1 as [|x l Hl IH Hx]; simpl; intros Hnd; [constructor|].
  inversion Hnd as [|? ? Hk Hnd']; subst.
  constructor; [exact (IH Hnd')|].
  rewrite Forall_forall in Hx |- *. intros y Hy.
  specialize (Hx y Hy). unfold R_le, row_le, row_cmp in Hx.
  destruct (na_last_cmp true (key cs x) (key cs y)) eqn:E; try discriminate;
    [|reflexivity].
  apply na_last_cmp_eq in E. exfalso. apply Hk. rewrite E. apply in_map, Hy.
Qed.

(** X1: when the primary frame already has a [Numéro de compteur]
    column (with distinct labels and no [Numéro de compteur_x] or
    [Diametre_x]), the merge suffixes both [Numéro de compteur] columns,
    so [drop(columns=['Numéro de compteur'])] raises [KeyError]. *)
Theorem ajouter_diametres_numero_keyerror (df_e df_d : DataFrame) :
  has_col df_e KEY = true ->
  has_col df_d NUMERO = true -> has_col df_d DIAMETRE = true ->
  has_col df_e NUMERO = true ->
  NoDup (columns df_e) ->
  mem_str "Numéro de compteur_x" (columns df_e) = false ->
  mem_str "Diametre_x" (columns df_e) = false ->
  ajouter_diametres df_e df_d = Raised KeyError.
Proof. exact (ajouter_diametres_numero_raises df_e df_d). Qed.

(** X2: when the primary frame (with distinct labels) has both a
    [Diametre] and a [Diametre_x] column, the suffix would create a
    second [Diametre_x] column and the merge raises [MergeError]. *)
Theorem ajouter_diametres_diametre_x_mergeerror (df_e df_d : DataFrame) :
  has_col df_e KEY = true ->
  has_col df_d NUMERO = true -> has_col df_d DIAMETRE = true ->
  has_col df_e DIAMETRE = true -> has_col df_e "Diametre_x" = true ->
  NoDup (columns df_e) ->
  ajouter_diametres df_e df_d = Raised MergeError.
Proof.
  intros Hk Hn Hd HD HX Hnd.
  unfold ajouter_diametres. rewrite Hk, Hn, Hd. simpl negb. cbv iota beta.
  unfold merge_left. cbv zeta. simpl columns.
  change (map (fun c => if mem_str c [NUMERO; DIAMETRE] then (c ++ "_x")%string else c)
            (columns df_e)) with (left_labels (columns df_e)).
  destruct (new_dups [] [] (columns df_e) (left_labels (columns df_e))) eqn:E.
  - exfalso. revert E. apply new_dups_flags.
    + symmetry. apply length_left_labels.
    + exact Hnd.
    + intros x _ [].
    + right. intros Hl. unfold left_labels in Hl.
      rewrite has_col_mem_str, mem_str_In in HD, HX.
      assert (DIAMETRE = "Diametre_x") by
        (exact (nodup_map_inj _ _ _ _ Hl HD HX eq_refl)).
      discriminate.
  - reflexivity.
Qed.

(** X3: pandas' merge matches missing keys with each other: a primary
    row whose [N° compteur] is missing is joined with every lookup row
    whose [Numéro de compteur] is missing, and gets its diameter. *)
Theorem ajouter_diametres_missing_keys_match (df_e df_d : DataFrame)
    (r m : nat * list cell) :
  has_col df_e KEY = true ->
  has_col df_d NUMERO = true -> has_col df_d DIAMETRE = true ->
  mem_str NUMERO (columns df_e) = false ->
  mem_str DIAMETRE (columns df_e) = false ->
  Forall (fun r => length (snd r) = length (columns df_e)) (rows df_e) ->
  In r (rows df_e) -> get (columns df_e) (snd r) KEY = NaN ->
  In m (rows df_d) -> get (columns df_d) (snd m) NUMERO = NaN ->
  exists out,
    ajouter_diametres df_e df_d = Returned [] out /\
    In (snd r ++ [get (columns df_d) (snd m) DIAMETRE])%list (map snd (rows out)).
Proof.
  intros Hk Hn Hd HN HD Hwf Hr Hkr Hm Hkm.
  assert (HL := left_labels_id _ HN HD).
  destruct (ajouter_diametres_shape df_e df_d Hk Hn Hd HN) as (out & Eo & _ & Er);
    [rewrite HL; apply new_dups_same | exact Hwf |].
  exists out. split; [exact Eo|]. rewrite Er.
  unfold joined_cells. apply in_flat_map. exists r. split; [exact Hr|].
  apply (in_map (fun d => (snd r ++ [d])%list)). rewrite Hkr. unfold joined_diameters.
  assert (Hmm : In m (matches df_d NaN))
    by (apply filter_In; split; [exact Hm | rewrite Hkm; reflexivity]).
  apply (in_map (fun m => get (columns df_d) (snd m) DIAMETRE)) in Hmm.
  destruct (map (fun m => get (columns df_d) (snd m) DIAMETRE) (matches df_d NaN))
    as [|x xs]; [destruct Hmm | exact Hmm].
Qed.

(** X4: the frame [nettoyer_fichier] returns is ordered by strictly
    increasing meter number, a missing meter number last. *)
Theorem nettoyer_fichier_sorted_keys (parse : string -> option Z)
    (df : DataFrame) :
  let out := snd (snd (nettoyer_fichier parse df)) in
  StronglySorted
    (fun a b => na_last_cmp true (key (columns out) a) (key (columns out) b) = Lt)
    (rows out).
Proof.
  intros out. subst out.
  destruct (forallb (has_col df) colonnes_requises) eqn:H.
  - rewrite (nettoyer_fichier_ok parse df H). simpl.
    apply sorted_nodup_lt; [|apply drop_dup_nodup].
    apply drop_dup_sorted, filter_sorted, sort_sorted.
  - unfold nettoyer_fichier. rewrite H. simpl. constructor.
Qed.

(** X5: every row [nettoyer_fichier] returns is a row, with its index
    label and cells, of the caller's frame as the call leaves it, and its
    [Date] is a parsed timestamp. *)
Theorem nettoyer_fichier_rows_from_input (parse : string -> option Z)
    (df : DataFrame) (r : nat * list cell) :
  In r (rows (snd (snd (nettoyer_fichier parse df)))) ->
  In r (rows (fst (nettoyer_fichier parse df))) /\
  exists d, date (columns df) r = Timestamp d.
Proof.
  destruct (forallb (has_col df) colonnes_requises) eqn:H.
  - rewrite (nettoyer_fichier_ok parse df H). simpl. intros Hr.
    apply drop_dup_incl, filter_In in Hr as [Hr _].
    apply (Permutation_in _ (sort_perm _ _)) in Hr.
    split; [exact Hr|]. exact (parsed_rows_dated parse df r Hr).
  - unfold nettoyer_fichier. rewrite H. simpl. tauto.
Qed.

(** X6: on page "Comparaison Fichiers", when a file lacks [N° compteur],
    the error is followed by the report that 0 meters are missing and
    the "nothing is missing" notice. *)
Theorem page_comparaison_schema_error {upload : Type}
    (read_csv : list string -> upload -> string + DataFrame)
    (f1 f2 : upload) (df1 df2 : DataFrame) :
  read_csv [REF; KEY] f1 = inr df1 -> read_csv [REF; KEY] f2 = inr df2 ->
  has_col df1 KEY && has_col df2 KEY = false ->
  page_comparaison read_csv (Some f1) (Some f2) true =
  [st_error "La colonne 'N° compteur' doit exister dans les deux fichiers.";
   st_success "Analyse terminée : **0** compteur(s) sont manquants.";
   st_info "Bonne nouvelle, aucun compteur ne manque !"].
Proof.
  intros H1 H2 Hk. unfold page_comparaison. rewrite H1, H2.
  unfold comparer_fichiers.
  destruct (has_col df1 KEY), (has_col df2 KEY); try discriminate; reflexivity.
Qed.

(** X7: on page "Comparaison Fichiers", when both files have
    [N° compteur], the count reported as missing meters is the number of
    rows of file 1 whose meter number is absent from file 2, rows of a
    repeated meter counted each; those rows are shown and offered for
    download, or the "nothing is missing" notice when there are none. *)
Theorem page_comparaison_count {upload : Type}
    (read_csv : list string -> upload -> string + DataFrame)
    (f1 f2 : upload) (df1 df2 : DataFrame) :
  read_csv [REF; KEY] f1 = inr df1 -> read_csv [REF; KEY] f2 = inr df2 ->
  has_col df1 KEY = true -> has_col df2 KEY = true ->
  let manquants :=
    filter (fun r => negb (mem (get (columns df1) (snd r) KEY) (column df2 KEY)))
      (rows df1) in
  page_comparaison read_csv (Some f1) (Some f2) true =
  st_success ("Analyse terminée : **" ++ Z_repr (Z.of_nat (length manquants))
                ++ "** compteur(s) sont manquants.")
  :: match manquants with
     | [] => [st_info "Bonne nouvelle, aucun compteur ne manque !"]
     | _ => [st_subheader "Liste des compteurs manquants";
             st_dataframe (mkDF (columns df1) manquants);
             st_download_button "Télécharger la liste (CSV)"
               "compteurs_manquants.csv" (mkDF (columns df1) manquants)]
     end.
Proof.
  intros H1 H2 Hk1 Hk2 manquants. unfold page_comparaison. rewrite H1, H2.
  rewrite (comparer_fichiers_ok df1 df2 Hk1 Hk2). fold manquants.
  unfold empty. simpl.
  destruct (columns df1) as [|c cs] eqn:Ec; [unfold has_col in Hk1; rewrite Ec in Hk1; discriminate|].
  simpl. destruct manquants; reflexivity.
Qed.

(** X8: on page "Nettoyage Doublons", a click on the button always
    leaves a result whose "Lignes après" count is at most its
    "Lignes avant" count, both displayed. *)
Theorem page_nettoyage_fewer_after {upload : Type}
    (read_csv : list string -> upload -> string + DataFrame)
    (parse : string -> option Z) (state : session) (f : upload) (df : DataFrame) :
  read_csv [REF; KEY] f = inr df ->
  exists res n ds,
    page_nettoyage read_csv parse state (Some f) true = (Some (res, n), ds) /\
    In (st_metric "Lignes avant" n) ds /\
    In (st_metric "Lignes après" (length (rows res))) ds /\
    length (rows res) <= n.
Proof.
  intros Hf. pose proof (nettoyer_fichier_shrinks parse df) as Hs.
  unfold page_nettoyage. rewrite Hf.
  destruct (nettoyer_fichier parse df) as [df_apres [msgs res]]. simpl in Hs.
  do 3 eexists. split; [reflexivity|].
  split; [|split; [|exact Hs]];
    apply in_app_iff; right; apply in_app_iff; right; simpl; tauto.
Qed.

(** X9: on page "Nettoyage Doublons", a file lacking a required column
    still gets "C'est terminé !" after the error, and a result of 0 rows
    against all its rows, with the empty frame offered for download. *)
Theorem page_nettoyage_schema_error {upload : Type}
    (read_csv : list string -> upload -> string + DataFrame)
    (parse : string -> option Z) (state : session) (f : upload) (df : DataFrame) :
  read_csv [REF; KEY] f = inr df ->
  forallb (has_col df) colonnes_requises = false ->
  page_nettoyage read_csv parse state (Some f) true =
  (Some (empty_frame, length (rows df)),
   [st_subheader "Aperçu du fichier original";
    st_dataframe (head 5 df);
    st_error ("Erreur : il manque les colonnes suivantes : "
                ++ join ", " (filter (fun c => negb (has_col df c)) colonnes_requises));
    st_success "C'est terminé !";
    st_header "2. Résultat";
    st_dataframe empty_frame;
    st_metric "Lignes avant" (length (rows df));
    st_metric "Lignes après" 0;
    st_download_button "Télécharger le résultat (CSV)" "fichier_nettoye.csv"
      empty_frame]).
Proof.
  intros Hf H. unfold page_nettoyage. rewrite Hf.
  unfold nettoyer_fichier. rewrite H. reflexivity.
Qed.

(** X10: on page "Nettoyage Doublons", after a cleaning of file 1, a run
    with another file 2 uploaded and no click previews file 2 but still
    shows file 1's result, counts and download. *)
Theorem page_nettoyage_stale_result {upload : Type}
    (read_csv : list string -> upload -> string + DataFrame)
    (parse : string -> option Z) (state : session) (f1 f2 : upload)
    (df1 df2 : DataFrame) :
  read_csv [REF; KEY] f1 = inr df1 -> read_csv [REF; KEY] f2 = inr df2 ->
  let res := snd (snd (nettoyer_fichier parse df1)) in
  let n := length (rows (fst (nettoyer_fichier parse df1))) in
  page_nettoyage read_csv parse
    (fst (page_nettoyage read_csv parse state (Some f1) true)) (Some f2) false =
  (Some (res, n),
   [st_subheader "Aperçu du fichier original";
    st_dataframe (head 5 df2);
    st_header "2. Résultat";
    st_dataframe res;
    st_metric "Lignes avant" n;
    st_metric "Lignes après" (length (rows res));
    st_download_button "Télécharger le résultat (CSV)" "fichier_nettoye.csv" res]).
Proof.
  intros H1 H2 res n. subst res n. unfold page_nettoyage at 2. rewrite H1.
  destruct (nettoyer_fichier parse df1) as [df_apres [msgs res]]. simpl.
  unfold page_nettoyage. rewrite H2. reflexivity.
Qed.

(** X11: on page "Ajout Diamètre", when a required column is missing,
    the error is followed by "Opération terminée !", and the empty frame
    is shown and offered for download. *)
Theorem page_ajout_schema_error {upload : Type} (name : upload -> string)
    (read_csv read_excel : list string -> upload -> string + DataFrame)
    (exn_text : exn -> string) (fe fd : upload) (df1 df2 : DataFrame) :
  read_csv dtype_spec fe = inr df1 ->
  (if endswith (name fd) ".csv" then read_csv dtype_spec fd
   else read_excel dtype_spec fd) = inr df2 ->
  has_col df1 KEY && has_col df2 NUMERO && has_col df2 DIAMETRE = false ->
  exists msg,
    page_ajout name read_csv read_excel exn_text (Some fe) (Some fd) true =
    [st_error msg;
     st_success "Opération terminée !";
     st_subheader "Aperçu du fichier final avec les diamètres";
     st_dataframe empty_frame;
     st_download_button "Télécharger le fichier final (CSV)"
       "extraction_avec_diametres.csv" empty_frame].
Proof.
  intros H1 H2 H. unfold page_ajout. rewrite H1, H2.
  unfold ajouter_diametres.
  destruct (has_col df1 KEY), (has_col df2 NUMERO), (has_col df2 DIAMETRE);
    try discriminate; eexists; reflexivity.
Qed.

(** X12: on page "Ajout Diamètre", a primary file that already has a
    [Numéro de compteur] column (with distinct labels and no
    [Numéro de compteur_x] or [Diametre_x]) gets only the error message
    of the [KeyError]: no result and no download. *)
Theorem page_ajout_numero_keyerror {upload : Type} (name : upload -> string)
    (read_csv read_excel : list string -> upload -> string + DataFrame)
    (exn_text : exn -> string) (fe fd : upload) (df1 df2 : DataFrame) :
  read_csv dtype_spec fe = inr df1 ->
  (if endswith (name fd) ".csv" then read_csv dtype_spec fd
   else read_excel dtype_spec fd) = inr df2 ->
  has_col df1 KEY = true ->
  has_col df2 NUMERO = true -> has_col df2 DIAMETRE = true ->
  has_col df1 NUMERO = true ->
  NoDup (columns df1) ->
  mem_str "Numéro de compteur_x" (columns df1) = false ->
  mem_str "Diametre_x" (columns df1) = false ->
  page_ajout name read_csv read_excel exn_text (Some fe) (Some fd) true =
  [st_error (oups (exn_text KeyError))].
Proof.
  intros H1 H2 Hk Hn Hd HN Hnd HxN HxD. unfold page_ajout. rewrite H1, H2.
  rewrite (ajouter_diametres_numero_raises df1 df2 Hk Hn Hd HN Hnd HxN HxD).
  reflexivity.
Qed.

Lemma ajouter_diametres_numero_keyerror_witness :
  ajouter_diametres (mkDF [KEY; NUMERO] [(0%nat, [Str "A"; Str "A"])]) ex_lookup =
  Raised KeyError.
Proof.
  apply ajouter_diametres_numero_keyerror; try reflexivity.
  repeat constructor; simpl; intuition discriminate.
Defined.

Lemma ajouter_diametres_diametre_x_mergeerror_witness :
  ajouter_diametres
    (mkDF [KEY; DIAMETRE; "Diametre_x"] [(0%nat, [Str "A"; Int 1; Int 2])])
    ex_lookup = Raised MergeError.
Proof.
  apply ajouter_diametres_diametre_x_mergeerror; try reflexivity.
  repeat constructor; simpl; intuition discriminate.
Defined.

Lemma ajouter_diametres_missing_keys_match_witness :
  exists out,
    ajouter_diametres (mkDF [KEY] [(0%nat, [NaN])])
      (mkDF [NUMERO; DIAMETRE] [(0%nat, [Str "A"; Int 20]); (1%nat, [NaN; Int 40])]) =
    Returned [] out /\
    In [NaN; Int 40] (map snd (rows out)).
Proof.
  apply (ajouter_diametres_missing_keys_match
           (mkDF [KEY] [(0%nat, [NaN])])
           (mkDF [NUMERO; DIAMETRE] [(0%nat, [Str "A"; Int 20]); (1%nat, [NaN; Int 40])])
           (0%nat, [NaN]) (1%nat, [NaN; Int 40]));
    try reflexivity.
  - repeat constructor.
  - left. reflexivity.
  - right. left. reflexivity.
Defined.

Lemma nettoyer_fichier_rows_from_input_witness :
  In (row_of 1 (Str "B") (Timestamp 20240110) (Str "2"))
    (rows (fst (nettoyer_fichier iso_parse t8))) /\
  exists d, date (columns t8) (row_of 1 (Str "B") (Timestamp 20240110) (Str "2")) =
            Timestamp d.
Proof.
  apply nettoyer_fichier_rows_from_input.
  vm_compute. left. reflexivity.
Defined.

Lemma page_comparaison_schema_error_witness :
  page_comparaison read_frame (Some (mkDF [REF] [])) (Some (keys_frame [1%Z])) true =
  [st_error "La colonne 'N° compteur' doit exister dans les deux fichiers.";
   st_success "Analyse terminée : **0** compteur(s) sont manquants.";
   st_info "Bonne nouvelle, aucun compteur ne manque !"].
Proof.
  apply (page_comparaison_schema_error read_frame _ _
           (mkDF [REF] []) (keys_frame [1%Z])); reflexivity.
Defined.

Lemma page_comparaison_count_witness :
  page_comparaison read_frame (Some (keys_frame [1; 2; 3; 1]%Z))
    (Some (keys_frame [2; 3; 4]%Z)) true =
  [st_success "Analyse terminée : **2** compteur(s) sont manquants.";
   st_subheader "Liste des compteurs manquants";
   st_dataframe (mkDF [KEY] [(0%nat, [Int 1]); (3%nat, [Int 1])]);
   st_download_button "Télécharger la liste (CSV)" "compteurs_manquants.csv"
     (mkDF [KEY] [(0%nat, [Int 1]); (3%nat, [Int 1])])].
Proof.
  rewrite (page_comparaison_count read_frame _ _
             (keys_frame [1; 2; 3; 1]%Z) (keys_frame [2; 3; 4]%Z))
    by reflexivity.
  vm_compute. reflexivity.
Defined.

Lemma page_nettoyage_fewer_after_witness :
  exists res n ds,
    page_nettoyage read_frame iso_parse None (Some t8) true = (Some (res, n), ds) /\
    In (st_metric "Lignes avant" n) ds /\
    In (st_metric "Lignes après" (length (rows res))) ds /\
    length (rows res) <= n.
Proof.
  apply (page_nettoyage_fewer_after read_frame iso_parse None t8 t8).
  reflexivity.
Defined.

Lemma page_nettoyage_schema_error_witness :
  page_nettoyage read_frame iso_parse None (Some (mkDF [KEY] [])) true =
  (Some (empty_frame, 0%nat),
   [st_subheader "Aperçu du fichier original";
    st_dataframe (head 5 (mkDF [KEY] []));
    st_error "Erreur : il manque les colonnes suivantes : Date, Index";
    st_success "C'est terminé !";
    st_header "2. Résultat";
    st_dataframe empty_frame;
    st_metric "Lignes avant" 0;
    st_metric "Lignes après" 0;
    st_download_button "Télécharger le résultat (CSV)" "fichier_nettoye.csv"
      empty_frame]).
Proof.
  apply (page_nettoyage_schema_error read_frame iso_parse None _ (mkDF [KEY] []));
    reflexivity.
Defined.

Lemma page_nettoyage_stale_result_witness :
  page_nettoyage read_frame iso_parse
    (fst (page_nettoyage read_frame iso_parse None (Some t8) true)) (Some t3) false =
  (Some (releves [row_of 1 (Str "B") (Timestamp 20240110) (Str "2")], 1%nat),
   [st_subheader "Aperçu du fichier original";
    st_dataframe (head 5 t3);
    st_header "2. Résultat";
    st_dataframe (releves [row_of 1 (Str "B") (Timestamp 20240110) (Str "2")]);
    st_metric "Lignes avant" 1;
    st_metric "Lignes après" 1;
    st_download_button "Télécharger le résultat (CSV)" "fichier_nettoye.csv"
      (releves [row_of 1 (Str "B") (Timestamp 20240110) (Str "2")])]).
Proof.
  rewrite (page_nettoyage_stale_result read_frame iso_parse None t8 t3 t8 t3)
    by reflexivity.
  vm_compute. reflexivity.
Defined.

Lemma page_ajout_schema_error_witness :
  exists msg,
    page_ajout (fun _ => "diametres.csv") read_frame read_frame (fun _ => "")
      (Some ex_primary) (Some (mkDF [NUMERO] [])) true =
    [st_error msg;
     st_success "Opération terminée !";
     st_subheader "Aperçu du fichier final avec les diamètres";
     st_dataframe empty_frame;
     st_download_button "Télécharger le fichier final (CSV)"
       "extraction_avec_diametres.csv" empty_frame].
Proof.
  apply (page_ajout_schema_error (fun _ => "diametres.csv") read_frame read_frame
           (fun _ => "") _ _ ex_primary (mkDF [NUMERO] []));
    vm_compute; reflexivity.
Defined.

Lemma page_ajout_numero_keyerror_witness :
  page_ajout (fun _ => "diametres.csv") read_frame read_frame (fun _ => "KeyError")
    (Some (mkDF [KEY; NUMERO] [(0%nat, [Str "A"; Str "A"])])) (Some ex_lookup) true =
  [st_error "Oups, une erreur est survenue : KeyError"].
Proof.
  apply (page_ajout_numero_keyerror (fun _ => "diametres.csv") read_frame read_frame
           (fun _ => "KeyError") _ _ (mkDF [KEY; NUMERO] [(0%nat, [Str "A"; Str "A"])])
           ex_lookup);
    try (vm_compute; reflexivity).
  repeat constructor; simpl; intuition discriminate.
Defined.
